(** * ProgrammaticDataAccess.ipynb: a shallow embedding of the notebook's code

    The notebook filters a DESeq2 table by p-value, maps a rate-limited
    lookup over the identifiers that remain, and looks up publications for
    one gene set.  Python values are modelled by the types below, the network
    and the clock by an explicit [World], exceptions by [Raise].

    Clock readings and periods are exact rationals (seconds); the rounding of
    [time.monotonic()] is not modelled.  Characters are [ascii]. *)

From Stdlib Require Import List String Ascii ZArith QArith Bool Lia Lqa.
From Stdlib Require Import Floats.SpecFloat.
From Stdlib Require Import Structures.OrdersEx Sorting.Sorted.
Import ListNotations.

Local Open Scope string_scope.

(** ** Python values *)

Set Warnings "-register-all".

(** A decoded JSON document, as [response.json()] hands it over: [None],
    [bool], [int], [float], [str], [list] and [dict] (string keys, in the
    order of the document, every key once). *)
Inductive Json : Type :=
| JNone
| JBool (b : bool)
| JInt (n : Z)
| JFloat (x : spec_float)
| JStr (s : string)
| JList (items : list Json)
| JDict (entries : list (string * Json)).

(** The exceptions the cells can raise. *)
Inductive Exn : Type :=
| RateLimitException (message : string) (period_remaining : Q)
| ConnectionError
| JSONDecodeError
| KeyError (key : Json)
| IndexError
| TypeError.

Inductive result (A : Type) : Type :=
| Ok (a : A)
| Raise (e : Exn).
Arguments Ok {A} a.
Arguments Raise {A} e.

(** Computations over a state [S] that return or raise; the state survives
    an exception, as the attributes of a Python object do. *)
Definition Py (S A : Type) : Type := S -> result A * S.

Definition ret {S A} (a : A) : Py S A := fun s => (Ok a, s).

Definition bind {S A B} (m : Py S A) (k : A -> Py S B) : Py S B :=
  fun s =>
    match m s with
    | (Ok a, s') => k a s'
    | (Raise e, s') => (Raise e, s')
    end.

Definition lift {S A} (r : result A) : Py S A := fun s => (r, s).

Notation "x <- m ;; k" := (bind m (fun x => k))
  (at level 61, m at next level, right associativity).

(** ** IEEE 754 doubles: the [pvalue] column and the threshold *)

Definition float : Type := spec_float.

(** [x < y] on doubles; false as soon as one side is NaN. *)
Definition float_lt (x y : float) : bool := SFltb x y.

Definition nan : float := S754_nan.

(** The literal [0.01]: 0x1.47ae147ae147bp-7. *)
Definition threshold : float := S754_finite false 5764607523034235 (-59).

(** [0.001] is 0x1.0624dd2f1a9fcp-10 and [0.5] is 0x1p-1. *)
Definition float_0_001 : float := S754_finite false 4611686018427388 (-62).
Definition float_0_5 : float := S754_finite false 4503599627370496 (-53).

(** The double nearest to an integer, and the correctly rounded quotient of
    two doubles: what reading a decimal with few digits amounts to. *)
Definition float_of_Z (n : Z) : float := binary_normalize 53 1024 n 0 false.
Definition float_div (x y : float) : float := SFdiv 53 1024 x y.

(** ** Cells 4 and 6: the DESeq2 table and the significance filter *)

(** One line of deseq2_results.csv: the identifier, the p-value and the other
    statistics by column name. *)
Record Row : Type := {
  urs_taxid : string;
  pvalue : float;
  stats : list (string * float)
}.

Definition DataFrame : Type := list Row.

(** [de_data["pvalue"] < 0.01]: the element-wise comparison, a boolean Series. *)
Definition pvalue_lt (df : DataFrame) (bound : float) : list bool :=
  map (fun row => float_lt (pvalue row) bound) df.

(** [de_data[mask]]: the rows at which the mask is [True], in table order. *)
Fixpoint getitem_mask (df : DataFrame) (mask : list bool) : DataFrame :=
  match df, mask with
  | row :: df', true :: mask' => row :: getitem_mask df' mask'
  | _ :: df', false :: mask' => getitem_mask df' mask'
  | _, _ => []
  end.

(** [de_data = de_data[de_data["pvalue"] < 0.01]] *)
Definition significant (de_data : DataFrame) : DataFrame :=
  getitem_mask de_data (pvalue_lt de_data threshold).

(** ** The network and the clock *)

Record Request : Type := {
  sent_at : Q;
  url : string
}.

(** What a response object offers: the status code, and the decoded body
    when the body is JSON. *)
Record Response : Type := {
  status_code : Z;
  body : option Json
}.

(** [response.json()] *)
Definition json (response : Response) : result Json :=
  match body response with
  | Some v => Ok v
  | None => Raise JSONDecodeError
  end.

(** The clock and the GET requests issued so far, oldest first.  The clock
    moves only while a request is out. *)
Record World : Type := {
  now : Q;
  sent : list Request
}.

Inductive Outcome : Type :=
| Answer (response : Response)
| NoAnswer.

(** The remote side: what it answers to a GET and how long the caller is
    blocked, both free to depend on the time and on the requests before. *)
Record Server : Type := {
  respond : World -> string -> Outcome;
  latency : World -> string -> Q
}.

(** The world once a GET of [u] has come back: the request is recorded at
    the time it starts and the caller was blocked for the latency. *)
Definition after_get (server : Server) (u : string) (w : World) : World :=
  {| now := now w + latency server w u;
     sent := sent w ++ [{| sent_at := now w; url := u |}] |}.

(** [requests.get(url)] *)
Definition requests_get (server : Server) (u : string) : Py World Response :=
  fun w =>
    match respond server w u with
    | Answer response => (Ok response, after_get server u w)
    | NoAnswer => (Raise ConnectionError, after_get server u w)
    end.

(** ** The [ratelimit] package: [limits] is [RateLimitDecorator]

    The notebook imports the decorator and passes [calls] and [period] only;
    [clock] and [raise_on_limit] keep their defaults (the monotonic clock,
    [True]).  [sleep_and_retry] is not imported.  The package is a
    dependency of the notebook; the definitions follow its decorators.py. *)
Module ratelimit.

Record RateLimitDecorator : Type := {
  clamped_calls : Z;
  period : Q;
  last_reset : Q;
  num_calls : Z
}.

Definition maxsize : Z := 9223372036854775807.

(** [__init__]: [clamped_calls = max(1, min(sys.maxsize, floor(calls)))],
    [last_reset = clock()], [num_calls = 0]. *)
Definition limits (calls : Z) (period : Q) (w : World) : RateLimitDecorator :=
  {| clamped_calls := Z.max 1 (Z.min maxsize calls);
     period := period;
     last_reset := now w;
     num_calls := 0 |}.

(** [__period_remaining]: [period - (clock() - last_reset)]. *)
Definition period_remaining (self : RateLimitDecorator) (w : World) : Q :=
  period self - (now w - last_reset self).

Definition reset (self : RateLimitDecorator) (w : World) : RateLimitDecorator :=
  {| clamped_calls := clamped_calls self;
     period := period self;
     last_reset := now w;
     num_calls := 0 |}.

Definition count (self : RateLimitDecorator) : RateLimitDecorator :=
  {| clamped_calls := clamped_calls self;
     period := period self;
     last_reset := last_reset self;
     num_calls := num_calls self + 1 |}.

(** What [wrapper] does to the decorator before it decides: a reset when
    the period has elapsed, then the attempt is counted. *)
Definition attempt (self : RateLimitDecorator) (w : World) : RateLimitDecorator :=
  count (if Qle_bool (period_remaining self w) 0 then reset self w else self).

(** The attempt is let through when the count stays within [clamped_calls]. *)
Definition admits (self : RateLimitDecorator) (w : World) : bool :=
  negb (clamped_calls (attempt self w) <? num_calls (attempt self w))%Z.

(** [wrapper]: the decorated function.
<<
    period_remaining = self.__period_remaining()
    if period_remaining <= 0:
        self.num_calls = 0
        self.last_reset = self.clock()
    self.num_calls += 1
    if self.num_calls > self.clamped_calls:
        if self.raise_on_limit:
            raise RateLimitException('too many calls', period_remaining)
        return
    return func(...)
>>
    A call beyond [clamped_calls] in the current period raises and [func]
    is not called. *)
Definition wrapper {A B} (func : A -> Py World B) (arg : A)
  : Py (RateLimitDecorator * World) B :=
  fun '(self, w) =>
    let remaining := period_remaining self w in
    let self' := attempt self w in
    if (clamped_calls self' <? num_calls self')%Z
    then (Raise (RateLimitException "too many calls" remaining), (self', w))
    else let (r, w') := func arg w in (r, (self', w')).

End ratelimit.
Import ratelimit.

(** ** Cell 8: the enrichment lookup and the map over the identifier column *)

Definition rna_url (rnacentral_id : string) : string :=
  "https://rnacentral.org/api/v1/rna/" ++ rnacentral_id.

(** The body of [get_rna_data], before decoration. *)
Definition get_rna_data_body (server : Server) (rnacentral_id : string)
  : Py World Json :=
  response <- requests_get server (rna_url rnacentral_id) ;;
  lift (json response).

(** [@limits(calls=20, period=1) def get_rna_data(rnacentral_id)] *)
Definition get_rna_data (server : Server) (rnacentral_id : string)
  : Py (RateLimitDecorator * World) Json :=
  wrapper (get_rna_data_body server) rnacentral_id.

(** [Series.progress_map(f)]: [f] on every element in order; the first
    exception ends the map.  The list holds what [f] returned.  The Series
    pandas builds from it keeps these values as they are when they are JSON
    objects (dtype object); a result made of numbers and nulls is converted
    to a numeric dtype, which this definition does not follow. *)
Fixpoint progress_map {S A B} (f : A -> Py S B) (xs : list A) : Py S (list B) :=
  match xs with
  | [] => ret []
  | x :: xs' =>
      v <- f x ;;
      vs <- progress_map f xs' ;;
      ret (v :: vs)
  end.

(** The cell as run: the decorator is built when [get_rna_data] is defined,
    then [r = de_data["urs_taxid"].progress_map(get_rna_data)]. *)
Definition enrich (server : Server) (ids : list string) (w : World)
  : result (list Json) * (RateLimitDecorator * World) :=
  progress_map (get_rna_data server) ids (limits 20 1 w, w).

(** The same cell with another configuration of the decorator. *)
Definition enrich_with (calls : Z) (period : Q) (server : Server)
  (ids : list string) (w : World)
  : result (list Json) * (RateLimitDecorator * World) :=
  progress_map (get_rna_data server) ids (limits calls period w, w).

(** ** Vocabulary of the statements about the map and the rate limit *)

(** Every request for an identifier is answered, with the record the
    endpoint holds for it. *)
Definition always_answers (server : Server) (record_of : string -> Json) : Prop :=
  forall w id, exists response,
    respond server w (rna_url id) = Answer response
    /\ body response = Some (record_of id).

(** Every call of the map finds the decorator ready to let it through. *)
Fixpoint admitted_throughout (server : Server) (ids : list string)
  (self : RateLimitDecorator) (w : World) : bool :=
  match ids with
  | [] => true
  | id :: ids' =>
      admits self w
      && admitted_throughout server ids' (attempt self w)
           (after_get server (rna_url id) w)
  end.

(** The decorator and the world once the map has gone through [ids] with
    every call let through. *)
Fixpoint after_calls (server : Server) (ids : list string)
  (self : RateLimitDecorator) (w : World) : RateLimitDecorator * World :=
  match ids with
  | [] => (self, w)
  | id :: ids' =>
      after_calls server ids' (attempt self w) (after_get server (rna_url id) w)
  end.

Definition Qlt_bool (x y : Q) : bool := negb (Qle_bool y x).

(** The requests that started in the trailing interval [(t - width, t]]. *)
Definition trailing (width t : Q) (log : list Request) : list Request :=
  filter (fun r => Qlt_bool (t - width) (sent_at r) && Qle_bool (sent_at r) t) log.

(** The requests that started at or after the decorator's last reset. *)
Definition since_reset (self : RateLimitDecorator) (log : list Request) : list Request :=
  filter (fun r => Qle_bool (last_reset self) (sent_at r)) log.

(** The requests that started less than one period before the last reset. *)
Definition before_reset (self : RateLimitDecorator) (log : list Request) : list Request :=
  filter (fun r => Qlt_bool (last_reset self - period self) (sent_at r)
                   && Qlt_bool (sent_at r) (last_reset self)) log.

(** What holds of the decorator and the log between two calls, for a
    decorator of [c] calls per period [p]: the log is in the past and every
    request in it started before the current period ends; the requests of the
    current period are counted by [num_calls] and are at most [c]; so are the
    requests of the period before; and no trailing interval of one period
    holds more than [2 * c] requests. *)
Definition windowed (c : Z) (p : Q) (self : RateLimitDecorator) (w : World) : Prop :=
  period self = p
  /\ clamped_calls self = c
  /\ 0 < p
  /\ last_reset self <= now w
  /\ (forall r, In r (sent w) ->
                sent_at r <= now w /\ sent_at r < last_reset self + p)
  /\ (Z.of_nat (List.length (since_reset self (sent w))) <= Z.min (num_calls self) c)%Z
  /\ (Z.of_nat (List.length (before_reset self (sent w))) <= c)%Z
  /\ (forall t, Z.of_nat (List.length (trailing p t (sent w))) <= c + c)%Z.

(** What holds between two calls when every request takes a twentieth of a
    second or more: the attempts counted in the current period are that far
    apart. *)
Definition paced (self : RateLimitDecorator) (w : World) : Prop :=
  period self = 1
  /\ clamped_calls self = 20%Z
  /\ (0 <= num_calls self)%Z
  /\ inject_Z (num_calls self) * (1 # 20) <= now w - last_reset self.

(** ** Cell 16: the publication lookup *)

Definition dquote : string := String (ascii_of_nat 34) EmptyString.

(** [v[key]] for a string key: a lookup in a [dict], a [TypeError] on
    everything else a JSON document can hold. *)
Definition getitem (v : Json) (key : string) : result Json :=
  match v with
  | JDict entries =>
      match find (fun kv => String.eqb (fst kv) key) entries with
      | Some kv => Ok (snd kv)
      | None => Raise (KeyError (JStr key))
      end
  | _ => Raise TypeError
  end.

(** [v[0]]: the first item of a [list], the first character of a [str]; a
    [dict] of a JSON document has no key [0]. *)
Definition getitem_0 (v : Json) : result Json :=
  match v with
  | JList (x :: _) => Ok x
  | JList [] => Raise IndexError
  | JStr (String c _) => Ok (JStr (String c EmptyString))
  | JStr EmptyString => Raise IndexError
  | JDict _ => Raise (KeyError (JInt 0))
  | _ => Raise TypeError
  end.

Fixpoint characters (s : string) : list Json :=
  match s with
  | EmptyString => []
  | String c s' => JStr (String c EmptyString) :: characters s'
  end.

(** [for hit in v]: the items of a [list], the keys of a [dict], the
    characters of a [str]. *)
Definition iterate (v : Json) : result (list Json) :=
  match v with
  | JList items => Ok items
  | JDict entries => Ok (map (fun kv => JStr (fst kv)) entries)
  | JStr s => Ok (characters s)
  | _ => Raise TypeError
  end.

(** A list comprehension whose element expression can raise. *)
Fixpoint comprehension {A B} (f : A -> result B) (xs : list A) : result (list B) :=
  match xs with
  | [] => Ok []
  | x :: xs' =>
      match f x with
      | Raise e => Raise e
      | Ok y =>
          match comprehension f xs' with
          | Raise e => Raise e
          | Ok ys => Ok (y :: ys)
          end
      end
  end.

Definition and_then {A B} (r : result A) (k : A -> result B) : result B :=
  match r with
  | Ok a => k a
  | Raise e => Raise e
  end.

(** [hit['fields'][name][0]] *)
Definition first_field (name : string) (hit : Json) : result Json :=
  and_then (getitem hit "fields") (fun fields =>
  and_then (getitem fields name) getitem_0).

(** [pd.DataFrame({"titles": titles, "pmcids": pmcids, "links": links})]:
    three columns of one length.  The columns hold the lists as they are
    when titles and pmcids are strings; pandas converts a column of numbers
    and nulls to a numeric dtype, which this record does not follow (the
    links are strings whatever the pmcids are). *)
Record PublicationData : Type := {
  titles : list Json;
  pmcids : list Json;
  links : list string
}.

Record PublicationRecord : Type := {
  title : Json;
  pmcid : Json;
  link : string
}.

(** The rows of the table, top to bottom. *)
Fixpoint rows3 (ts ps : list Json) (ls : list string) : list PublicationRecord :=
  match ts, ps, ls with
  | t :: ts', p :: ps', l :: ls' =>
      {| title := t; pmcid := p; link := l |} :: rows3 ts' ps' ls'
  | _, _, _ => []
  end.

Definition records (df : PublicationData) : list PublicationRecord :=
  rows3 (titles df) (pmcids df) (links df).

(** ['job_id:"{}"'.format(gene) for gene in genes]; [genes] is the set in
    the order its iteration yields. *)
Definition format_gene_query (genes : list string) : list string :=
  map (fun gene => "job_id:" ++ dquote ++ gene ++ dquote) genes.

Definition litscan_url (genes : list string) : string :=
  "https://www.ebi.ac.uk/ebisearch/ws/rest/rnacentral-litscan?query=entry_type:Publication AND ("
    ++ String.concat " OR " (format_gene_query genes)
    ++ ")&fields=title,pmcid&format=json".

Section Publications.

(** [format(v, '')] of a value that is not a [str] (Python's [str(v)]):
    left open, a [str] is interpolated as it is. *)
Variable str_of_other : Json -> string.

Definition interpolate (v : Json) : string :=
  match v with
  | JStr s => s
  | _ => str_of_other v
  end.

(** [f"https://www.ncbi.nlm.nih.gov/pmc/articles/{pmcid}/"] *)
Definition pmc_link (pmcid : Json) : string :=
  "https://www.ncbi.nlm.nih.gov/pmc/articles/" ++ interpolate pmcid ++ "/".

(** The body of [get_publications], before decoration. *)
Definition get_publications_body (server : Server) (genes : list string)
  : Py World PublicationData :=
  response <- requests_get server (litscan_url genes) ;;
  lift (and_then (json response) (fun r =>
        and_then (and_then (getitem r "entries") iterate) (fun hits =>
        and_then (comprehension (first_field "title") hits) (fun titles =>
        and_then (and_then (getitem r "entries") iterate) (fun hits' =>
        and_then (comprehension (first_field "pmcid") hits') (fun pmcids =>
        Ok {| titles := titles;
              pmcids := pmcids;
              links := map pmc_link pmcids |})))))).

(** [@limits(calls=20, period=1) def get_publications(genes)] *)
Definition get_publications (server : Server) (genes : list string)
  : Py (RateLimitDecorator * World) PublicationData :=
  wrapper (get_publications_body server) genes.

(** The cell as run: the decorator is built, then the function is called
    once. *)
Definition lookup (server : Server) (genes : list string) (w : World)
  : result PublicationData * (RateLimitDecorator * World) :=
  get_publications server genes (limits 20 1 w, w).

End Publications.

(** ** Endpoints and tables used in the examples *)

Definition started : World := {| now := 0; sent := [] |}.

(** An endpoint that answers every GET at once with 200 and the URL. *)
Definition instant_server : Server :=
  {| respond := fun _ u => Answer {| status_code := 200; body := Some (JStr u) |};
     latency := fun _ _ => 0 |}.

(** The same endpoint, one millisecond per request. *)
Definition quick_server : Server :=
  {| respond := fun _ u => Answer {| status_code := 200; body := Some (JStr u) |};
     latency := fun _ _ => 1 # 1000 |}.

(** The same endpoint, fifty milliseconds per request. *)
Definition paced_server : Server :=
  {| respond := fun _ u => Answer {| status_code := 200; body := Some (JStr u) |};
     latency := fun _ _ => 1 # 20 |}.

(** The first request takes 0.9 s, the twentieth 0.1 s, the others none. *)
Definition burst_server : Server :=
  {| respond := fun _ u => Answer {| status_code := 200; body := Some (JStr u) |};
     latency := fun w _ =>
       match List.length (sent w) with
       | O => 9 # 10
       | 19%nat => 1 # 10
       | _ => 0
       end |}.

Definition mirna_record : Json :=
  JDict [("rna_type", JStr "miRNA"); ("genes", JList [JStr "g1"; JStr "g2"])].

(** Answers 200 and [mirna_record] to every GET. *)
Definition mirna_server : Server :=
  {| respond := fun _ _ => Answer {| status_code := 200; body := Some mirna_record |};
     latency := fun _ _ => 1 # 10 |}.

Definition not_found : Json := JDict [("detail", JStr "Not found.")].

(** Answers 404 with a JSON error document to every GET. *)
Definition missing_server : Server :=
  {| respond := fun _ _ => Answer {| status_code := 404; body := Some not_found |};
     latency := fun _ _ => 1 # 10 |}.

Definition hit_of (t p : string) : Json :=
  JDict [("id", JStr p);
         ("fields", JDict [("pmcid", JList [JStr p]); ("title", JList [JStr t])])].

Definition two_hits : list Json :=
  [hit_of "First paper" "PMC1"; hit_of "Second paper" "PMC2"].

(** A search endpoint that returns two entries. *)
Definition litscan_server : Server :=
  {| respond := fun _ _ =>
       Answer {| status_code := 200;
                 body := Some (JDict [("hitCount", JInt 2); ("entries", JList two_hits)]) |};
     latency := fun _ _ => 1 # 10 |}.

Definition row_A : Row := {| urs_taxid := "A"; pvalue := float_0_001; stats := [] |}.
Definition row_B : Row := {| urs_taxid := "B"; pvalue := float_0_5; stats := [] |}.
Definition row_C : Row := {| urs_taxid := "C"; pvalue := nan; stats := [] |}.

Definition ids_of (n : nat) : list string := repeat "URS0000000001_7227" n.

(** ** Cells 6 and 8 together *)

(** [de_data["urs_taxid"].progress_map(get_rna_data)] on the table cell 6
    has left in [de_data]. *)
Definition enrich_significant (server : Server) (de_data : DataFrame) (w : World)
  : result (list Json) * (RateLimitDecorator * World) :=
  enrich server (map urs_taxid (significant de_data)) w.

(** ** Cells 8, 12, 14 and 16: the table of the records *)

(** A decoded JSON object. *)
Definition JsonObject : Type := list (string * Json).

(** [pd.DataFrame(list(r))] when every record is a JSON object: a row per
    record and a column per key that some record has.  A cell holds the
    record's value, or is missing (NaN) where the record has no such key.
    (In a column of numbers pandas stores the values as floats and a null as
    NaN; the columns read below hold strings and lists.) *)
Definition Table : Type := list JsonObject.

Definition cell (name : string) (record : JsonObject) : option Json :=
  match find (fun kv => String.eqb (fst kv) name) record with
  | Some kv => Some (snd kv)
  | None => None
  end.

Definition has_column (name : string) (table : Table) : bool :=
  existsb (fun record =>
             match cell name record with Some _ => true | None => false end)
          table.

(** [table[name]]: the column, a [KeyError] when no record has the key. *)
Definition getitem_column (table : Table) (name : string)
  : result (list (option Json)) :=
  if has_column name table
  then Ok (map (cell name) table)
  else Raise (KeyError (JStr name)).

(** [column == s]: true at the cells that hold the string [s]. *)
Definition column_eq (column : list (option Json)) (s : string) : list bool :=
  map (fun c => match c with
                | Some (JStr t) => String.eqb t s
                | _ => false
                end) column.

(** [table.loc[mask]] *)
Fixpoint loc {A} (table : list A) (mask : list bool) : list A :=
  match table, mask with
  | record :: table', true :: mask' => record :: loc table' mask'
  | _ :: table', false :: mask' => loc table' mask'
  | _, _ => []
  end.

(** Cell 14: [rnacentral_data.loc[rnacentral_data["rna_type"] == "miRNA"]] *)
Definition miRNA (rnacentral_data : Table) : result Table :=
  and_then (getitem_column rnacentral_data "rna_type") (fun column =>
  Ok (loc rnacentral_data (column_eq column "miRNA"))).

(** Cell 16: [list(miRNA['genes'])[0]], the cell the gene set is made of.
    [miRNA] has the columns of [rnacentral_data]. *)
Definition first_genes (rnacentral_data : Table) : result (option Json) :=
  and_then (miRNA rnacentral_data) (fun selected =>
  if has_column "genes" rnacentral_data
  then match selected with
       | record :: _ => Ok (cell "genes" record)
       | [] => Raise IndexError
       end
  else Raise (KeyError (JStr "genes"))).

(** The group key a cell gives: a string is a key, a null or a missing cell
    is not available and belongs to no group. *)
Definition key_of (c : option Json) : option string :=
  match c with
  | Some (JStr s) => Some s
  | _ => None
  end.

Definition string_or_missing (c : option Json) : bool :=
  match c with
  | None | Some JNone | Some (JStr _) => true
  | _ => false
  end.

(** One more occurrence of [key] in counts kept in ascending key order. *)
Fixpoint bump (key : string) (counts : list (string * nat)) : list (string * nat) :=
  match counts with
  | [] => [(key, 1%nat)]
  | (k, n) :: rest =>
      match String_as_OT.compare key k with
      | Lt => (key, 1%nat) :: (k, n) :: rest
      | Eq => (k, S n) :: rest
      | Gt => (k, n) :: bump key rest
      end
  end.

(** [groupby(name)[name].count()] on keys that are strings or not
    available: the size of every group, the groups in ascending order of
    their key. *)
Definition count_by (keys : list (option string)) : list (string * nat) :=
  fold_right (fun c counts =>
                match c with
                | Some k => bump k counts
                | None => counts
                end) [] keys.

(** Cell 12: [rnacentral_data.groupby("rna_type")['rna_type'].count()], for
    a column whose cells are strings, nulls or missing. *)
Definition rna_type_counts (rnacentral_data : Table) : result (list (string * nat)) :=
  and_then (getitem_column rnacentral_data "rna_type") (fun column =>
  Ok (count_by (map key_of column))).

(** The count a table of counts gives for a key. *)
Definition count_of (key : string) (counts : list (string * nat)) : nat :=
  match find (fun kn => String.eqb (fst kn) key) counts with
  | Some kn => snd kn
  | None => 0%nat
  end.

(** The number of cells of a column of keys that hold [key]. *)
Definition occurrences (key : string) (keys : list (option string)) : nat :=
  List.length (filter (fun c => match c with
                                | Some k => String.eqb k key
                                | None => false
                                end) keys).

(** ** More endpoints and tables for the examples *)

(** Answers 200 with a body that is not JSON. *)
Definition html_server : Server :=
  {| respond := fun _ _ => Answer {| status_code := 200; body := None |};
     latency := fun _ _ => 1 # 10 |}.

(** Answers every identifier but "down". *)
Definition flaky_server : Server :=
  {| respond := fun _ u =>
       if String.eqb u (rna_url "down") then NoAnswer
       else Answer {| status_code := 200; body := Some (JStr u) |};
     latency := fun _ _ => 1 # 10 |}.

Definition full_decorator : RateLimitDecorator :=
  {| clamped_calls := 20; period := 1; last_reset := 0; num_calls := 20 |}.

Definition later (t : Q) : World := {| now := t; sent := [] |}.

(** A search endpoint whose answer has no [entries]. *)
Definition error_server : Server :=
  {| respond := fun _ _ =>
       Answer {| status_code := 400;
                 body := Some (JDict [("message", JStr "bad query")]) |};
     latency := fun _ _ => 1 # 10 |}.

Definition hit_without_pmcid (t : string) : Json :=
  JDict [("fields", JDict [("pmcid", JList []); ("title", JList [JStr t])])].

Definition hit_without_title (p : string) : Json :=
  JDict [("fields", JDict [("pmcid", JList [JStr p])])].

Definition server_of (hits : list Json) : Server :=
  {| respond := fun _ _ =>
       Answer {| status_code := 200; body := Some (JDict [("entries", JList hits)]) |};
     latency := fun _ _ => 1 # 10 |}.

Definition record_lnc : JsonObject :=
  [("rna_type", JStr "lncRNA"); ("genes", JList [JStr "CR43432"])].
Definition record_mir : JsonObject :=
  [("rna_type", JStr "miRNA"); ("genes", JList [JStr "dme-mir-4968"])].
Definition record_bare : JsonObject := [("length", JInt 21)].

Definition two_hits_table : PublicationData :=
  {| titles := [JStr "First paper"; JStr "Second paper"];
     pmcids := [JStr "PMC1"; JStr "PMC2"];
     links := ["https://www.ncbi.nlm.nih.gov/pmc/articles/PMC1/";
               "https://www.ncbi.nlm.nih.gov/pmc/articles/PMC2/"] |}.

(** A row whose p-value is the threshold itself. *)
Definition row_D : Row := {| urs_taxid := "D"; pvalue := threshold; stats := [] |}.

(** ** Records that are JSON objects *)

Definition is_object (v : Json) : bool :=
  match v with
  | JDict _ => true
  | _ => false
  end.

(** An endpoint that answers every GET with 200 and a JSON object that
    holds the URL, [delay] seconds per request. *)
Definition object_server (delay : Q) : Server :=
  {| respond := fun _ u =>
       Answer {| status_code := 200; body := Some (JDict [("url", JStr u)]) |};
     latency := fun _ _ => delay |}.

Definition url_record (id : string) : Json := JDict [("url", JStr (rna_url id))].

(** Twenty identifiers and one more. *)
Definition ids_then_U : list string := (ids_of 20 ++ ["U"])%list.

(** * Properties *)

(** ** The significance filter *)

Lemma getitem_mask_filter (f : Row -> bool) (df : DataFrame) :
  getitem_mask df (map f df) = filter f df.
Proof.
  induction df as [|row df IH]; simpl; [reflexivity|].
  destruct (f row); rewrite IH; reflexivity.
Qed.

(** The three literals are the doubles nearest to 1/100, 1/1000 and 1/2. *)
Lemma literal_values :
  threshold = float_div (float_of_Z 1) (float_of_Z 100)
  /\ float_0_001 = float_div (float_of_Z 1) (float_of_Z 1000)
  /\ float_0_5 = float_div (float_of_Z 1) (float_of_Z 2).
Proof. repeat split; vm_compute; reflexivity. Qed.

Lemma significant_filter (df : DataFrame) :
  significant df = filter (fun row => float_lt (pvalue row) threshold) df.
Proof.
  unfold significant, pvalue_lt. apply getitem_mask_filter.
Qed.

(** The comparison with a NaN on the left is false, whatever the bound. *)
Lemma float_lt_nan (y : float) : float_lt nan y = false.
Proof. destruct y; reflexivity. Qed.

(** C5. The filter keeps exactly the rows with [pvalue < 0.01], in table
    order: of the rows A (0.001) and B (0.5) only A is kept, and every row
    kept has a p-value below the threshold. *)
Theorem C5_significance_filter :
  (forall df, significant df
              = filter (fun row => float_lt (pvalue row) threshold) df)
  /\ (forall df row,
        In row (significant df)
        <-> In row df /\ float_lt (pvalue row) threshold = true)
  /\ significant [row_A; row_B] = [row_A].
Proof.
  split; [exact significant_filter|]. split.
  - intros df row. rewrite significant_filter. apply filter_In.
  - reflexivity.
Qed.

(** C10. [NaN < 0.01] is false, so no row of the filtered table has a NaN
    p-value and a row with a NaN p-value is dropped. *)
Theorem C10_nan_rows_excluded :
  float_lt nan threshold = false
  /\ (forall df, Forall (fun row => pvalue row <> nan) (significant df))
  /\ significant [row_A; row_C; row_B] = [row_A].
Proof.
  split; [reflexivity|]. split; [|reflexivity].
  intros df. apply Forall_forall. intros row Hin Hnan.
  rewrite significant_filter in Hin. apply filter_In in Hin.
  destruct Hin as [_ Hlt]. rewrite Hnan in Hlt. discriminate Hlt.
Qed.

(** ** One call of the decorated function *)

(** A call the decorator lets through runs the function; the attempt is
    counted. *)
Lemma wrapper_admitted {A B} (func : A -> Py World B) (arg : A)
  (self : RateLimitDecorator) (w : World) :
  admits self w = true ->
  wrapper func arg (self, w)
  = (fst (func arg w), (attempt self w, snd (func arg w))).
Proof.
  unfold admits, wrapper. intros H.
  apply negb_true_iff in H. rewrite H.
  destruct (func arg w); reflexivity.
Qed.

(** A call the decorator stops raises; the function is not run and the world
    is as before. *)
Lemma wrapper_rejected {A B} (func : A -> Py World B) (arg : A)
  (self : RateLimitDecorator) (w : World) :
  admits self w = false ->
  wrapper func arg (self, w)
  = (Raise (RateLimitException "too many calls" (period_remaining self w)),
     (attempt self w, w)).
Proof.
  unfold admits, wrapper. intros H.
  apply negb_false_iff in H. rewrite H. reflexivity.
Qed.

(** The body of [get_rna_data], unfolded. *)
Lemma get_rna_data_body_eq (server : Server) (id : string) (w : World) :
  get_rna_data_body server id w
  = (match respond server w (rna_url id) with
     | Answer response => json response
     | NoAnswer => Raise ConnectionError
     end,
     after_get server (rna_url id) w).
Proof.
  unfold get_rna_data_body, bind, requests_get, lift.
  destruct (respond server w (rna_url id)); reflexivity.
Qed.

Lemma get_rna_data_admitted (server : Server) (id : string)
  (self : RateLimitDecorator) (w : World) :
  admits self w = true ->
  get_rna_data server id (self, w)
  = (match respond server w (rna_url id) with
     | Answer response => json response
     | NoAnswer => Raise ConnectionError
     end,
     (attempt self w, after_get server (rna_url id) w)).
Proof.
  intros H. unfold get_rna_data.
  rewrite (wrapper_admitted _ _ _ _ H), get_rna_data_body_eq. reflexivity.
Qed.

(** The decorator is at least one call wide. *)
Lemma clamped_calls_limits (calls : Z) (p : Q) (w : World) :
  (1 <= clamped_calls (limits calls p w))%Z.
Proof. simpl. lia. Qed.

(** The first call after decoration is let through, whatever the
    configuration. *)
Lemma fresh_admits (calls : Z) (p : Q) (w : World) :
  admits (limits calls p w) w = true.
Proof.
  unfold admits, attempt.
  destruct (Qle_bool (period_remaining (limits calls p w) w) 0);
    simpl; apply negb_true_iff, Z.ltb_ge; lia.
Qed.

(** ** The map over the identifiers *)

Section Enrichment.

Variable server : Server.

(** The record the endpoint holds for each identifier. *)
Variable record_of : string -> Json.

Lemma get_rna_data_answered (id : string) (self : RateLimitDecorator) (w : World) :
  always_answers server record_of ->
  admits self w = true ->
  get_rna_data server id (self, w)
  = (Ok (record_of id), (attempt self w, after_get server (rna_url id) w)).
Proof.
  intros Hs Ha. rewrite (get_rna_data_admitted _ _ _ _ Ha).
  destruct (Hs w id) as [response [-> Hb]].
  unfold json. rewrite Hb. reflexivity.
Qed.

Lemma progress_map_admitted (ids : list string) :
  always_answers server record_of ->
  forall self w,
    admitted_throughout server ids self w = true ->
    progress_map (get_rna_data server) ids (self, w)
    = (Ok (map record_of ids), after_calls server ids self w).
Proof.
  intros Hs. induction ids as [|id ids IH]; intros self w Ha; simpl.
  - reflexivity.
  - simpl in Ha. apply andb_true_iff in Ha. destruct Ha as [Ha Hrest].
    unfold bind at 1. rewrite (get_rna_data_answered _ _ _ Hs Ha).
    unfold bind at 1. rewrite (IH _ _ Hrest).
    unfold ret. reflexivity.
Qed.

End Enrichment.

(** Whatever the endpoint does, a map that returns has sent one GET per
    identifier, in order, each to the identifier's URL. *)
Lemma progress_map_sent (server : Server) (ids : list string) :
  forall self w out st,
    progress_map (get_rna_data server) ids (self, w) = (Ok out, st) ->
    map url (sent (snd st)) = (map url (sent w) ++ map rna_url ids)%list
    /\ List.length out = List.length ids.
Proof.
  induction ids as [|id ids IH]; intros self w out st H; simpl in H.
  - unfold ret in H. inversion H; subst. simpl. rewrite app_nil_r. auto.
  - unfold bind at 1 in H.
    destruct (admits self w) eqn:Ha.
    + rewrite (get_rna_data_admitted _ _ _ _ Ha) in H.
      destruct (respond server w (rna_url id)) as [response|]; [|discriminate H].
      destruct (json response) as [v|e]; [|discriminate H].
      unfold bind at 1 in H.
      destruct (progress_map (get_rna_data server) ids
                  (attempt self w, after_get server (rna_url id) w))
        as [[vs|e] st'] eqn:Hrest; [|discriminate H].
      unfold ret in H. inversion H; subst.
      destruct (IH _ _ _ _ Hrest) as [Hlog Hlen].
      rewrite Hlog. simpl. rewrite map_app, <- app_assoc. simpl.
      rewrite Hlen. auto.
    + unfold get_rna_data in H. rewrite (wrapper_rejected _ _ _ _ Ha) in H.
      discriminate H.
Qed.

(** C6. The record the map returns for an identifier is the JSON document
    of the response, as decoded: nothing is added, removed or converted.
    For the answer [{"rna_type": "miRNA", "genes": ["g1", "g2"]}] to "A" the
    output is that document. *)
Theorem C6_record_unmodified (server : Server) (id : string) (w : World)
  (response : Response) (v : Json) :
  respond server w (rna_url id) = Answer response ->
  body response = Some v ->
  fst (enrich server [id] w) = Ok [v].
Proof.
  intros Hr Hb. unfold enrich. simpl. unfold bind at 1.
  rewrite (get_rna_data_admitted _ _ _ _ (fresh_admits 20 1 w)), Hr.
  unfold json. rewrite Hb. reflexivity.
Qed.

Lemma C6_record_unmodified_witness :
  fst (enrich mirna_server ["A"] started)
  = Ok [JDict [("rna_type", JStr "miRNA"); ("genes", JList [JStr "g1"; JStr "g2"])]].
Proof.
  apply (C6_record_unmodified mirna_server "A" started
           {| status_code := 200; body := Some mirna_record |} mirna_record);
    reflexivity.
Defined.

(** C9. [get_rna_data] never looks at the status code: when the body of the
    response decodes, the decoded body is what the call returns, for a 404 as
    for a 200, and nothing is raised. *)
Theorem C9_status_code_ignored (server : Server) (id : string)
  (self : RateLimitDecorator) (w : World) (code : Z) (v : Json) :
  admits self w = true ->
  respond server w (rna_url id) = Answer {| status_code := code; body := Some v |} ->
  fst (get_rna_data server id (self, w)) = Ok v.
Proof.
  intros Ha Hr. rewrite (get_rna_data_admitted _ _ _ _ Ha), Hr. reflexivity.
Qed.

Lemma C9_status_code_ignored_witness :
  fst (get_rna_data missing_server "URS0000000001_7227" (limits 20 1 started, started))
  = Ok (JDict [("detail", JStr "Not found.")]).
Proof.
  apply (C9_status_code_ignored missing_server "URS0000000001_7227"
           (limits 20 1 started) started 404 not_found);
    reflexivity.
Defined.

(** C1 (amended). When every request is answered with the identifier's
    record, a JSON object, and the decorator lets every call through, the map
    returns one record per identifier, in the order of the input, the i-th
    record being the record of the i-th identifier; duplicates are looked up
    again. *)
Theorem C1_map_preserves_order (server : Server) (record_of : string -> Json)
  (ids : list string) (w : World) :
  always_answers server record_of ->
  (forall id, In id ids -> is_object (record_of id) = true) ->
  admitted_throughout server ids (limits 20 1 w) w = true ->
  exists out,
    fst (enrich server ids w) = Ok out
    /\ List.length out = List.length ids
    /\ forallb is_object out = true
    /\ forall i id, nth_error ids i = Some id ->
                    nth_error out i = Some (record_of id).
Proof.
  intros Hs Ho Ha. exists (map record_of ids). unfold enrich.
  rewrite (progress_map_admitted _ _ _ Hs _ _ Ha). split; [reflexivity|].
  split; [apply length_map|]. split.
  - apply forallb_forall. intros v Hv. apply in_map_iff in Hv.
    destruct Hv as [id [<- Hid]]. apply Ho. exact Hid.
  - intros i id Hi. rewrite nth_error_map, Hi. reflexivity.
Qed.

Lemma C1_map_preserves_order_witness :
  exists out,
    fst (enrich (object_server (1 # 20)) ["a"; "b"; "a"] started) = Ok out
    /\ List.length out = 3%nat
    /\ forallb is_object out = true
    /\ forall i id, nth_error ["a"; "b"; "a"] i = Some id ->
                    nth_error out i = Some (url_record id).
Proof.
  apply (C1_map_preserves_order (object_server (1 # 20)) url_record
           ["a"; "b"; "a"] started).
  - intros w id. eexists. split; reflexivity.
  - intros id _. reflexivity.
  - vm_compute. reflexivity.
Defined.

(** C1 as stated fails: 21 identifiers against an endpoint that answers
    every request with a JSON object in a millisecond.  Every remote call
    succeeds, yet the 21st call raises and the map returns nothing. *)
Lemma C1_counterexample :
  always_answers (object_server (1 # 1000)) url_record
  /\ (forall id, is_object (url_record id) = true)
  /\ (exists remaining,
        fst (enrich (object_server (1 # 1000)) (ids_of 21) started)
        = Raise (RateLimitException "too many calls" remaining))
  /\ ~ (exists out,
          fst (enrich (object_server (1 # 1000)) (ids_of 21) started) = Ok out
          /\ List.length out = List.length (ids_of 21)).
Proof.
  split; [intros w id; eexists; split; reflexivity|].
  split; [intros id; reflexivity|]. split.
  - eexists. vm_compute. reflexivity.
  - intros [out [H _]]. vm_compute in H. discriminate H.
Qed.

(** ** The decorator at its limit *)

Lemma Qle_bool_false (x y : Q) : Qle_bool x y = false <-> y < x.
Proof.
  split; intros H.
  - apply Qnot_le_lt. intros Hle. apply Qle_bool_iff in Hle. congruence.
  - destruct (Qle_bool x y) eqn:E; [|reflexivity].
    apply Qle_bool_iff in E. exfalso. apply (Qlt_not_le _ _ H E).
Qed.

(** C2 (amended). When the period has time left and [clamped_calls] attempts
    are already counted, the next call raises [RateLimitException] with the
    time left in the period; no request is sent, the clock has not moved and
    the caller is not paused. *)
Theorem C2_limit_raises (server : Server) (id : string)
  (self : RateLimitDecorator) (w : World) :
  0 < period_remaining self w ->
  (clamped_calls self <= num_calls self)%Z ->
  get_rna_data server id (self, w)
  = (Raise (RateLimitException "too many calls" (period_remaining self w)),
     (count self, w)).
Proof.
  intros Hr Hn. unfold get_rna_data, wrapper, attempt.
  apply Qle_bool_false in Hr. rewrite Hr. simpl.
  assert (H : (clamped_calls self <? num_calls self + 1)%Z = true)
    by (apply Z.ltb_lt; lia).
  rewrite H. reflexivity.
Qed.

Lemma C2_limit_raises_witness :
  get_rna_data instant_server "URS0000000001_7227"
    ({| clamped_calls := 20; period := 1; last_reset := 0; num_calls := 20 |},
     started)
  = (Raise (RateLimitException "too many calls" 1),
     ({| clamped_calls := 20; period := 1; last_reset := 0; num_calls := 21 |},
      started)).
Proof.
  apply (C2_limit_raises instant_server "URS0000000001_7227"
           {| clamped_calls := 20; period := 1; last_reset := 0; num_calls := 20 |}
           started).
  - reflexivity.
  - simpl. lia.
Defined.

(** C2 as stated fails: 41 calls against the zero-latency endpoint.  The
    21st call raises, 20 requests have been sent, and the clock still reads
    0: nothing was delayed and the run did not take two windows. *)
Lemma C2_counterexample :
  fst (enrich instant_server (ids_of 41) started)
  = Raise (RateLimitException "too many calls" 1)
  /\ now (snd (snd (enrich instant_server (ids_of 41) started))) = 0
  /\ List.length (sent (snd (snd (enrich instant_server (ids_of 41) started)))) = 20%nat
  /\ ~ (exists out, fst (enrich instant_server (ids_of 41) started) = Ok out).
Proof.
  repeat split; try (vm_compute; reflexivity).
  intros [out H]. vm_compute in H. discriminate H.
Qed.

(** ** The configuration is not checked *)

(** With a period that is not positive every call starts a new period and
    is let through. *)
Lemma nonpositive_period_admits (self : RateLimitDecorator) (w : World) :
  period self <= 0 ->
  last_reset self <= now w ->
  (1 <= clamped_calls self)%Z ->
  admits self w = true.
Proof.
  intros Hp Hl Hc. unfold admits, attempt.
  assert (H : Qle_bool (period_remaining self w) 0 = true).
  { apply Qle_bool_iff. unfold period_remaining. lra. }
  rewrite H. simpl. apply negb_true_iff, Z.ltb_ge. lia.
Qed.

Lemma nonpositive_period_never_stops (server : Server) (ids : list string) :
  (forall w u, 0 <= latency server w u) ->
  forall self w,
    period self <= 0 ->
    (1 <= clamped_calls self)%Z ->
    last_reset self <= now w ->
    admitted_throughout server ids self w = true.
Proof.
  intros Hlat. induction ids as [|id ids IH]; intros self w Hp Hc Hl; simpl.
  - reflexivity.
  - rewrite (nonpositive_period_admits self w Hp Hl Hc). simpl.
    assert (E : Qle_bool (period_remaining self w) 0 = true).
    { apply Qle_bool_iff. unfold period_remaining. lra. }
    apply IH; unfold attempt; rewrite E; simpl; auto.
    specialize (Hlat w (rna_url id)). lra.
Qed.

(** What [wrapper] raises is the limit or what the function raised. *)
Lemma wrapper_raises {A B} (func : A -> Py World B) (arg : A)
  (self : RateLimitDecorator) (w : World) (e : Exn) :
  fst (wrapper func arg (self, w)) = Raise e ->
  e = RateLimitException "too many calls" (period_remaining self w)
  \/ fst (func arg w) = Raise e.
Proof.
  destruct (admits self w) eqn:Ha.
  - rewrite (wrapper_admitted _ _ _ _ Ha). simpl. auto.
  - rewrite (wrapper_rejected _ _ _ _ Ha). simpl. intros H.
    inversion H. auto.
Qed.

(** C4 (amended). The decorator checks nothing and has no configuration
    error: whatever [calls] and [period] are, the first call after decoration
    is let through and sends its request; [calls] below 1 counts as 1, with
    a period that is not positive no call of the map is stopped, and the only
    exception the decorator raises of its own is [RateLimitException]. *)
Theorem C4_no_configuration_check :
  (forall calls p server id w,
      admits (limits calls p w) w = true
      /\ snd (snd (get_rna_data server id (limits calls p w, w)))
         = after_get server (rna_url id) w)
  /\ (forall calls p w, (calls <= 0)%Z -> clamped_calls (limits calls p w) = 1%Z)
  /\ (forall calls p server ids w,
        p <= 0 ->
        (forall w' u, 0 <= latency server w' u) ->
        admitted_throughout server ids (limits calls p w) w = true)
  /\ (forall server id self w e,
        fst (get_rna_data server id (self, w)) = Raise e ->
        e = RateLimitException "too many calls" (period_remaining self w)
        \/ fst (get_rna_data_body server id w) = Raise e).
Proof.
  split; [|split; [|split]].
  - intros calls p server id w. split; [apply fresh_admits|].
    rewrite (get_rna_data_admitted _ _ _ _ (fresh_admits calls p w)).
    reflexivity.
  - intros calls p w H. simpl. lia.
  - intros calls p server ids w Hp Hlat.
    apply nonpositive_period_never_stops; [exact Hlat|exact Hp| |];
      simpl; [lia|lra].
  - intros server id self w e. apply wrapper_raises.
Qed.

(** C4 as stated fails: with [calls = 0] and [period = -1] nothing is raised
    before the first request; all three requests are sent and the map
    returns. *)
Lemma C4_counterexample :
  (exists out, fst (enrich_with 0 (-1) instant_server (ids_of 3) started) = Ok out)
  /\ List.length (sent (snd (snd (enrich_with 0 (-1) instant_server (ids_of 3) started))))
     = 3%nat.
Proof.
  split; [eexists|]; vm_compute; reflexivity.
Qed.

(** ** Requests that take their time are never stopped *)

Lemma paced_step (server : Server) (u : string)
  (self : RateLimitDecorator) (w : World) :
  (forall w' u', 1 # 20 <= latency server w' u') ->
  paced self w ->
  admits self w = true /\ paced (attempt self w) (after_get server u w).
Proof.
  intros Hlat (Hp & Hc & Hn & Hgap).
  specialize (Hlat w u).
  unfold admits, attempt, period_remaining.
  destruct (Qle_bool (period self - (now w - last_reset self)) 0) eqn:E.
  - simpl. rewrite Hc. split; [reflexivity|].
    unfold paced. simpl. repeat split; auto; try lia.
    change (inject_Z 1) with 1%Q. lra.
  - apply Qle_bool_false in E. rewrite Hp in E.
    assert (Hlt : (num_calls self < 20)%Z).
    { rewrite Zlt_Qlt. change (inject_Z 20) with 20%Q. lra. }
    simpl. rewrite Hc. split.
    + apply negb_true_iff, Z.ltb_ge. lia.
    + unfold paced. simpl. repeat split; auto; try lia.
      rewrite inject_Z_plus. change (inject_Z 1) with 1%Q. lra.
Qed.

Lemma paced_admitted_throughout (server : Server) (ids : list string) :
  (forall w u, 1 # 20 <= latency server w u) ->
  forall self w, paced self w -> admitted_throughout server ids self w = true.
Proof.
  intros Hlat. induction ids as [|id ids IH]; intros self w Hp; simpl.
  - reflexivity.
  - destruct (paced_step server (rna_url id) self w Hlat Hp) as [Ha Hp'].
    rewrite Ha. simpl. apply IH. exact Hp'.
Qed.

(** ** What the decorator bounds: calls per period *)

Lemma Qlt_bool_iff (x y : Q) : Qlt_bool x y = true <-> x < y.
Proof.
  unfold Qlt_bool. rewrite negb_true_iff. apply Qle_bool_false.
Qed.

Lemma filter_length_le {A} (f g : A -> bool) (l : list A) :
  (forall x, In x l -> f x = true -> g x = true) ->
  (List.length (filter f l) <= List.length (filter g l))%nat.
Proof.
  induction l as [|x l IH]; intros H; simpl; [lia|].
  assert (IH' := IH (fun y Hy => H y (or_intror Hy))).
  destruct (f x) eqn:Ef.
  - rewrite (H x (or_introl eq_refl) Ef). simpl. lia.
  - destruct (g x); simpl; lia.
Qed.

Lemma filter_length_le_sum {A} (f g h : A -> bool) (l : list A) :
  (forall x, In x l -> f x = true -> g x = true \/ h x = true) ->
  (List.length (filter f l)
   <= List.length (filter g l) + List.length (filter h l))%nat.
Proof.
  induction l as [|x l IH]; intros H; simpl; [lia|].
  assert (IH' := IH (fun y Hy => H y (or_intror Hy))).
  destruct (f x) eqn:Ef.
  - destruct (H x (or_introl eq_refl) Ef) as [E|E]; rewrite E; simpl;
      destruct (g x), (h x); simpl; lia.
  - destruct (g x), (h x); simpl; lia.
Qed.

Lemma filter_none {A} (f : A -> bool) (l : list A) :
  (forall x, In x l -> f x = false) -> filter f l = [].
Proof.
  induction l as [|x l IH]; intros H; simpl; [reflexivity|].
  rewrite (H x (or_introl eq_refl)). apply IH.
  intros y Hy. apply H. right. exact Hy.
Qed.

(** One step of the map, unfolded. *)
Lemma progress_map_cons {S A B} (f : A -> Py S B) (x : A) (xs : list A) (s : S) :
  progress_map f (x :: xs) s
  = match f x s with
    | (Ok v, s') =>
        match progress_map f xs s' with
        | (Ok vs, s'') => (Ok (v :: vs), s'')
        | (Raise e, s'') => (Raise e, s'')
        end
    | (Raise e, s') => (Raise e, s')
    end.
Proof.
  simpl. unfold bind, ret. destruct (f x s) as [[v|e] s']; [|reflexivity].
  destruct (progress_map f xs s') as [[vs|e] s'']; reflexivity.
Qed.

Section Window.

Variable server : Server.
Hypothesis latency_nonneg : forall w u, 0 <= latency server w u.

Variable c : Z.
Variable p : Q.

(** The reset at the head of a call, when the period has elapsed, keeps
    the invariant; either way the call falls inside the current period. *)
Lemma windowed_reset (self : RateLimitDecorator) (w : World) :
  windowed c p self w ->
  let self' := if Qle_bool (period_remaining self w) 0 then reset self w else self in
  windowed c p self' w /\ now w < last_reset self' + p.
Proof.
  intros (Hp & Hc & Hpos & Hl & Hlog & Hcur & Hprev & Htrail).
  unfold period_remaining. rewrite Hp.
  destruct (Qle_bool (p - (now w - last_reset self)) 0) eqn:E; simpl.
  - apply Qle_bool_iff in E. split; [|lra].
    unfold windowed. simpl. repeat split; auto; try lra.
    + apply (Hlog r H).
    + destruct (Hlog r H). lra.
    + unfold since_reset. simpl. rewrite filter_none; [simpl; lia|].
      intros r Hr. apply Qle_bool_false. destruct (Hlog r Hr). lra.
    + assert (H : (List.length (before_reset (reset self w) (sent w))
                   <= List.length (since_reset self (sent w)))%nat).
      { apply filter_length_le. intros r Hr Hin. simpl in Hin.
        apply andb_true_iff in Hin. destruct Hin as [H1 _].
        apply Qlt_bool_iff in H1. apply Qle_bool_iff. rewrite Hp in H1. lra. }
      lia.
  - apply Qle_bool_false in E. split; [|lra].
    unfold windowed. repeat split; auto; apply (Hlog r H).
Qed.

(** Counting an attempt keeps the invariant. *)
Lemma windowed_count (self : RateLimitDecorator) (w : World) :
  windowed c p self w -> windowed c p (count self) w.
Proof.
  intros (Hp & Hc & Hpos & Hl & Hlog & Hcur & Hprev & Htrail).
  unfold windowed. simpl. repeat split; auto; try apply (Hlog r H).
  unfold since_reset in *. simpl. lia.
Qed.

(** A request sent by a call that is let through keeps the invariant. *)
Lemma windowed_sent (u : string) (self : RateLimitDecorator) (w : World) :
  windowed c p self w ->
  now w < last_reset self + p ->
  (num_calls self + 1 <= c)%Z ->
  windowed c p (count self) (after_get server u w).
Proof.
  intros (Hp & Hc & Hpos & Hl & Hlog & Hcur & Hprev & Htrail) Hin Hn.
  assert (Hlat := latency_nonneg w u).
  unfold windowed. simpl. split; [exact Hp|]. split; [exact Hc|].
  split; [exact Hpos|]. split; [lra|]. split; [|split; [|split]].
  - intros r Hr. apply in_app_or in Hr. destruct Hr as [Hr|[<-|[]]].
    + destruct (Hlog r Hr). split; lra.
    + simpl. split; lra.
  - unfold since_reset in *. simpl. rewrite filter_app, length_app. simpl.
    assert (E : Qle_bool (last_reset self) (now w) = true)
      by (apply Qle_bool_iff; exact Hl).
    rewrite E. simpl. lia.
  - unfold before_reset in *. simpl. rewrite filter_app, length_app. simpl.
    assert (E : Qlt_bool (now w) (last_reset self) = false).
    { unfold Qlt_bool. apply negb_false_iff, Qle_bool_iff. exact Hl. }
    rewrite E, andb_false_r. simpl. rewrite Nat.add_0_r. exact Hprev.
  - intros t. unfold trailing. rewrite filter_app, length_app. simpl.
    destruct (Qlt_bool (t - p) (now w) && Qle_bool (now w) t) eqn:E;
      simpl; [|rewrite Nat.add_0_r; apply Htrail].
    apply andb_true_iff in E. destruct E as [E1 E2].
    apply Qlt_bool_iff in E1. apply Qle_bool_iff in E2.
    assert (H : (List.length
                   (filter (fun r => Qlt_bool (t - p) (sent_at r)
                                     && Qle_bool (sent_at r) t) (sent w))
                 <= List.length (since_reset self (sent w))
                    + List.length (before_reset self (sent w)))%nat).
    { apply filter_length_le_sum. intros r Hr Hf.
      apply andb_true_iff in Hf. destruct Hf as [F1 F2].
      apply Qlt_bool_iff in F1.
      destruct (Qlt_le_dec (sent_at r) (last_reset self)) as [Hlt|Hge].
      - right. apply andb_true_iff. rewrite Hp.
        split; apply Qlt_bool_iff; lra.
      - left. apply Qle_bool_iff. exact Hge. }
    lia.
Qed.

(** One call of [get_rna_data] keeps the invariant, let through or not,
    answered or not. *)
Lemma windowed_call (id : string) (self : RateLimitDecorator) (w : World) :
  windowed c p self w ->
  windowed c p (fst (snd (get_rna_data server id (self, w))))
               (snd (snd (get_rna_data server id (self, w)))).
Proof.
  intros Hw. destruct (windowed_reset self w Hw) as [Hw' Hin].
  destruct (admits self w) eqn:Ha.
  - rewrite (get_rna_data_admitted _ _ _ _ Ha). simpl.
    unfold admits in Ha. apply negb_true_iff, Z.ltb_ge in Ha.
    unfold attempt in *. simpl in Ha.
    apply windowed_sent; [exact Hw'|exact Hin|].
    destruct Hw' as (_ & Hc & _). rewrite <- Hc. simpl. lia.
  - unfold get_rna_data. rewrite (wrapper_rejected _ _ _ _ Ha). simpl.
    unfold attempt. apply windowed_count. exact Hw'.
Qed.

Lemma windowed_map (ids : list string) :
  forall self w,
    windowed c p self w ->
    windowed c p (fst (snd (progress_map (get_rna_data server) ids (self, w))))
                 (snd (snd (progress_map (get_rna_data server) ids (self, w)))).
Proof.
  induction ids as [|id ids IH]; intros self w Hw; [exact Hw|].
  rewrite progress_map_cons.
  assert (Hcall := windowed_call id self w Hw).
  destruct (get_rna_data server id (self, w)) as [[v|e] [self' w']];
    simpl in Hcall; [|exact Hcall].
  assert (Hrest := IH self' w' Hcall).
  destruct (progress_map (get_rna_data server) ids (self', w'))
    as [[vs|e] st]; exact Hrest.
Qed.

End Window.

(** A decorator just built, over an empty log. *)
Lemma windowed_fresh (calls : Z) (p : Q) (w : World) :
  0 < p -> sent w = [] ->
  windowed (clamped_calls (limits calls p w)) p (limits calls p w) w.
Proof.
  intros Hp Hs. unfold windowed, since_reset, before_reset, trailing.
  rewrite Hs. simpl. repeat split; auto; try lra; try lia; contradiction.
Qed.

(** C3 (amended). In every run of the map the decorator admits at most 20
    calls per period of its own, a period running from one reset of the
    count to the next; the periods do not slide with the calls, so a trailing
    interval of one second can span two of them, and it holds at most 40
    admitted calls. *)
Theorem C3_calls_per_period (server : Server) (ids : list string) (w : World) :
  (forall w' u, 0 <= latency server w' u) ->
  sent w = [] ->
  (List.length (since_reset (fst (snd (enrich server ids w)))
                            (sent (snd (snd (enrich server ids w))))) <= 20)%nat
  /\ forall t,
       (List.length (trailing 1 t (sent (snd (snd (enrich server ids w))))) <= 40)%nat.
Proof.
  intros Hlat Hs. unfold enrich.
  assert (H := windowed_map server Hlat _ _ ids _ _ (windowed_fresh 20 1 w eq_refl Hs)).
  destruct H as (_ & _ & _ & _ & _ & Hcur & _ & Htrail).
  change (clamped_calls (limits 20 1 w)) with 20%Z in *.
  split; [lia|]. intros t. specialize (Htrail t). lia.
Qed.

Lemma C3_calls_per_period_witness :
  (List.length (since_reset (fst (snd (enrich burst_server (ids_of 40) started)))
                            (sent (snd (snd (enrich burst_server (ids_of 40) started)))))
   <= 20)%nat
  /\ forall t,
       (List.length (trailing 1 t (sent (snd (snd (enrich burst_server (ids_of 40) started)))))
        <= 40)%nat.
Proof.
  apply (C3_calls_per_period burst_server (ids_of 40) started).
  - intros w u. simpl. destruct (List.length (sent w)) as [|n]; [lra|].
    do 19 (destruct n as [|n]; [lra|]). lra.
  - reflexivity.
Defined.

(** C3 as stated fails: 40 calls against an endpoint whose first answer
    takes 0.9 s and whose twentieth takes 0.1 s.  All 40 calls are admitted,
    and 39 of them start in the trailing second that ends at 1 s. *)
Lemma C3_counterexample :
  (exists out, fst (enrich burst_server (ids_of 40) started) = Ok out)
  /\ List.length (trailing 1 1 (sent (snd (snd (enrich burst_server (ids_of 40) started)))))
     = 39%nat
  /\ (20 < List.length
             (trailing 1 1 (sent (snd (snd (enrich burst_server (ids_of 40) started))))))%nat.
Proof.
  split; [eexists; vm_compute; reflexivity|].
  assert (H : List.length
                (trailing 1 1 (sent (snd (snd (enrich burst_server (ids_of 40) started)))))
              = 39%nat) by (vm_compute; reflexivity).
  split; [exact H|]. rewrite H. lia.
Qed.

(** ** The publication lookup *)

Lemma comprehension_Forall2 {A B} (f : A -> result B) (xs : list A) (ys : list B) :
  Forall2 (fun x y => f x = Ok y) xs ys -> comprehension f xs = Ok ys.
Proof.
  induction 1 as [|x y xs ys Hx _ IH]; simpl; [reflexivity|].
  rewrite Hx, IH. reflexivity.
Qed.

Lemma rows3_combine (f : Json -> string) (ts ps : list Json) :
  rows3 ts ps (map f ps)
  = map (fun tp => {| title := fst tp; pmcid := snd tp; link := f (snd tp) |})
        (combine ts ps).
Proof.
  revert ps. induction ts as [|t ts IH]; intros [|p ps]; simpl; try reflexivity.
  rewrite IH. reflexivity.
Qed.

Lemma Forall2_JStr (name : string) (hits : list Json) (ss : list string) :
  Forall2 (fun hit s => first_field name hit = Ok (JStr s)) hits ss ->
  Forall2 (fun hit v => first_field name hit = Ok v) hits (map JStr ss).
Proof.
  induction 1; simpl; constructor; assumption.
Qed.

Lemma combine_map_both {A B C D} (f : A -> C) (g : B -> D)
  (l : list A) (l' : list B) :
  combine (map f l) (map g l') = map (fun ab => (f (fst ab), g (snd ab))) (combine l l').
Proof.
  revert l'. induction l as [|a l IH]; intros [|b l']; simpl; try reflexivity.
  rewrite IH. reflexivity.
Qed.

(** C7. When the search endpoint answers with a document whose [entries]
    are n hits, each with a string as first title and a string as first
    pmcid under [fields], the lookup returns a table of exactly n records in
    the order of the hits; each record carries the hit's title, its pmcid,
    and the link "https://www.ncbi.nlm.nih.gov/pmc/articles/{pmcid}/" made
    from that pmcid. *)
Theorem C7_publication_records (str_of_other : Json -> string)
  (server : Server) (genes : list string) (w : World)
  (response : Response) (doc : Json) (hits : list Json) (ts ps : list string) :
  respond server w (litscan_url genes) = Answer response ->
  body response = Some doc ->
  getitem doc "entries" = Ok (JList hits) ->
  Forall2 (fun hit t => first_field "title" hit = Ok (JStr t)) hits ts ->
  Forall2 (fun hit p => first_field "pmcid" hit = Ok (JStr p)) hits ps ->
  exists df,
    fst (lookup str_of_other server genes w) = Ok df
    /\ List.length (records df) = List.length hits
    /\ records df
       = map (fun tp =>
                {| title := JStr (fst tp);
                   pmcid := JStr (snd tp);
                   link := "https://www.ncbi.nlm.nih.gov/pmc/articles/"
                           ++ snd tp ++ "/" |})
             (combine ts ps).
Proof.
  intros Hr Hb He Ht Hp.
  exists {| titles := map JStr ts; pmcids := map JStr ps;
            links := map (pmc_link str_of_other) (map JStr ps) |}.
  assert (Hrec : records {| titles := map JStr ts; pmcids := map JStr ps;
                            links := map (pmc_link str_of_other) (map JStr ps) |}
                 = map (fun tp =>
                          {| title := JStr (fst tp);
                             pmcid := JStr (snd tp);
                             link := "https://www.ncbi.nlm.nih.gov/pmc/articles/"
                                     ++ snd tp ++ "/" |})
                       (combine ts ps)).
  { unfold records. cbn [titles pmcids links].
    rewrite rows3_combine, combine_map_both, map_map. reflexivity. }
  split; [|split].
  - unfold lookup, get_publications.
    rewrite (wrapper_admitted _ _ _ _ (fresh_admits 20 1 w)). simpl.
    unfold get_publications_body, bind, requests_get. rewrite Hr.
    unfold lift, json. rewrite Hb. simpl. rewrite He. simpl.
    rewrite (comprehension_Forall2 _ _ _ (Forall2_JStr _ _ _ Ht)). simpl.
    rewrite (comprehension_Forall2 _ _ _ (Forall2_JStr _ _ _ Hp)). reflexivity.
  - rewrite Hrec, length_map, length_combine.
    rewrite <- (Forall2_length Ht), <- (Forall2_length Hp). apply Nat.min_id.
  - exact Hrec.
Qed.

Lemma C7_publication_records_witness :
  exists df,
    fst (lookup (fun _ => "") litscan_server ["dme-mir-4968"] started) = Ok df
    /\ List.length (records df) = 2%nat
    /\ records df
       = [{| title := JStr "First paper"; pmcid := JStr "PMC1";
             link := "https://www.ncbi.nlm.nih.gov/pmc/articles/PMC1/" |};
          {| title := JStr "Second paper"; pmcid := JStr "PMC2";
             link := "https://www.ncbi.nlm.nih.gov/pmc/articles/PMC2/" |}].
Proof.
  apply (C7_publication_records (fun _ => "") litscan_server ["dme-mir-4968"] started
           {| status_code := 200;
              body := Some (JDict [("hitCount", JInt 2); ("entries", JList two_hits)]) |}
           (JDict [("hitCount", JInt 2); ("entries", JList two_hits)])
           two_hits
           ["First paper"; "Second paper"]
           ["PMC1"; "PMC2"]);
    try reflexivity; repeat constructor.
Defined.

(** * Further properties of the cells *)

(** ** Cell 6: the filter on its own *)

Lemma filter_twice {A} (f : A -> bool) (l : list A) :
  filter f (filter f l) = filter f l.
Proof.
  induction l as [|x l IH]; simpl; [reflexivity|].
  destruct (f x) eqn:E; simpl; [rewrite E, IH|]; auto.
Qed.

(** X1. Running the filter cell again changes nothing: the filtered table
    filters to itself. *)
Theorem significant_idempotent (df : DataFrame) :
  significant (significant df) = significant df.
Proof.
  rewrite !significant_filter. apply filter_twice.
Qed.

(** X2. Each row is judged on its own: the filter of two tables stacked is
    the two filtered tables stacked, and the filter never adds a row. *)
Theorem significant_rowwise (df1 df2 : DataFrame) :
  significant (df1 ++ df2)%list = (significant df1 ++ significant df2)%list
  /\ (List.length (significant df1) <= List.length df1)%nat.
Proof.
  rewrite !significant_filter. split; [apply filter_app|apply List.filter_length_le].
Qed.

(** X3. The bound is strict and the p-values are not validated: a row whose
    p-value is exactly 0.01, or +inf, is dropped; a row whose p-value is a
    zero, negative or -inf is kept. *)
Theorem significant_boundary (df : DataFrame) (row : Row) :
  In row df ->
  (pvalue row = threshold \/ pvalue row = S754_infinity false ->
   ~ In row (significant df))
  /\ ((exists s, pvalue row = S754_zero s)
      \/ (exists m e, pvalue row = S754_finite true m e)
      \/ pvalue row = S754_infinity true ->
      In row (significant df)).
Proof.
  intros Hin. rewrite significant_filter. split.
  - intros H Hf. apply filter_In in Hf. destruct Hf as [_ Hlt].
    destruct H as [H|H]; rewrite H in Hlt; discriminate Hlt.
  - intros H. apply filter_In. split; [exact Hin|].
    destruct H as [[s H]|[(m & e & H)|H]]; rewrite H;
      try destruct s; reflexivity.
Qed.

Lemma significant_boundary_witness :
  (pvalue row_D = threshold \/ pvalue row_D = S754_infinity false ->
   ~ In row_D (significant [row_A; row_D]))
  /\ ((exists s, pvalue row_D = S754_zero s)
      \/ (exists m e, pvalue row_D = S754_finite true m e)
      \/ pvalue row_D = S754_infinity true ->
      In row_D (significant [row_A; row_D])).
Proof.
  apply (significant_boundary [row_A; row_D] row_D).
  simpl. auto.
Defined.

(** ** Cell 8: the decorator between calls *)

(** What an attempt does to the count. *)
Lemma attempt_count (self : RateLimitDecorator) (w : World) :
  (0 <= num_calls self)%Z ->
  (1 <= num_calls (attempt self w) <= num_calls self + 1)%Z
  /\ clamped_calls (attempt self w) = clamped_calls self
  /\ period (attempt self w) = period self.
Proof.
  intros Hn. unfold attempt.
  destruct (Qle_bool (period_remaining self w) 0); simpl; repeat split; lia.
Qed.

Lemma admits_count (self : RateLimitDecorator) (w : World) :
  admits self w = true
  <-> (num_calls (attempt self w) <= clamped_calls (attempt self w))%Z.
Proof.
  unfold admits. rewrite negb_true_iff, Z.ltb_ge. reflexivity.
Qed.

(** An attempt that is stopped was made inside the period: there was no
    reset. *)
Lemma rejected_no_reset (self : RateLimitDecorator) (w : World) :
  (1 <= clamped_calls self)%Z ->
  admits self w = false ->
  0 < period_remaining self w /\ attempt self w = count self.
Proof.
  intros Hc Ha. unfold admits, attempt in *.
  destruct (Qle_bool (period_remaining self w) 0) eqn:E.
  - simpl in Ha. apply negb_false_iff, Z.ltb_lt in Ha. lia.
  - apply Qle_bool_false in E. split; [exact E|reflexivity].
Qed.

(** X4. Attempts that are stopped are counted too: after a call was stopped,
    every further call made while the period has time left is stopped as
    well, and sends nothing. *)
Theorem rejected_stays_rejected (server : Server) (id : string)
  (self : RateLimitDecorator) (w w' : World) :
  admits self w = false ->
  0 < period_remaining (attempt self w) w' ->
  get_rna_data server id (attempt self w, w')
  = (Raise (RateLimitException "too many calls"
              (period_remaining (attempt self w) w')),
     (count (attempt self w), w')).
Proof.
  intros Ha Hr. unfold admits in Ha.
  apply negb_false_iff, Z.ltb_lt in Ha.
  assert (E : attempt (attempt self w) w' = count (attempt self w)).
  { unfold attempt at 1. apply Qle_bool_false in Hr. rewrite Hr. reflexivity. }
  assert (Ha' : admits (attempt self w) w' = false).
  { unfold admits. rewrite E. apply negb_false_iff, Z.ltb_lt.
    unfold count. cbn [num_calls clamped_calls]. lia. }
  unfold get_rna_data. rewrite (wrapper_rejected _ _ _ _ Ha'), E. reflexivity.
Qed.

Lemma rejected_stays_rejected_witness :
  get_rna_data instant_server "URS0000000001_7227"
    (attempt full_decorator started, later (1 # 2))
  = (Raise (RateLimitException "too many calls"
              (period_remaining (attempt full_decorator started) (later (1 # 2)))),
     (count (attempt full_decorator started), later (1 # 2))).
Proof.
  apply (rejected_stays_rejected instant_server "URS0000000001_7227"
           full_decorator started (later (1 # 2)));
    reflexivity.
Defined.

(** X5. The time the exception carries is enough: a call made that long, or
    longer, after a call that was stopped is let through; it starts a new
    period with a count of one and runs the body. *)
Theorem waiting_is_enough (server : Server) (id : string)
  (self : RateLimitDecorator) (w w' : World) :
  (1 <= clamped_calls self)%Z ->
  admits self w = false ->
  now w + period_remaining self w <= now w' ->
  get_rna_data server id (attempt self w, w')
  = (fst (get_rna_data_body server id w'),
     (count (reset (attempt self w) w'), after_get server (rna_url id) w')).
Proof.
  intros Hc Ha Hw.
  destruct (rejected_no_reset self w Hc Ha) as [Hr Hatt].
  assert (E : Qle_bool (period_remaining (attempt self w) w') 0 = true).
  { apply Qle_bool_iff. rewrite Hatt. unfold period_remaining in *. simpl. lra. }
  assert (Hatt' : attempt (attempt self w) w' = count (reset (attempt self w) w')).
  { unfold attempt at 1. rewrite E. reflexivity. }
  assert (Ha' : admits (attempt self w) w' = true).
  { apply admits_count. rewrite Hatt', Hatt. simpl. lia. }
  unfold get_rna_data.
  rewrite (wrapper_admitted _ _ _ _ Ha'), Hatt', get_rna_data_body_eq.
  reflexivity.
Qed.

Lemma waiting_is_enough_witness :
  get_rna_data instant_server "URS0000000001_7227"
    (attempt full_decorator started, later 1)
  = (fst (get_rna_data_body instant_server "URS0000000001_7227" (later 1)),
     (count (reset (attempt full_decorator started) (later 1)),
      after_get instant_server (rna_url "URS0000000001_7227") (later 1))).
Proof.
  apply (waiting_is_enough instant_server "URS0000000001_7227"
           full_decorator started (later 1)).
  - simpl. lia.
  - reflexivity.
  - vm_compute. discriminate.
Defined.

(** Within the budget of the decorator every call is let through, whatever
    the clock does. *)
Lemma admitted_within_budget (server : Server) (ids : list string) :
  forall self w,
    (0 <= num_calls self)%Z ->
    (1 <= clamped_calls self)%Z ->
    (num_calls self + Z.of_nat (List.length ids) <= clamped_calls self)%Z ->
    admitted_throughout server ids self w = true.
Proof.
  induction ids as [|id ids IH]; intros self w Hn Hc Hb; simpl; [reflexivity|].
  destruct (attempt_count self w Hn) as (Hn' & Hc' & _).
  simpl List.length in Hb.
  assert (Ha : admits self w = true) by (apply admits_count; lia).
  rewrite Ha. simpl. apply IH; lia.
Qed.

(** X6. A map over at most 20 identifiers is never stopped by the decorator,
    however fast the endpoint: when every request is answered with the
    identifier's record, a JSON object, it returns the records of all the
    identifiers. *)
Theorem small_batch_returns (server : Server) (record_of : string -> Json)
  (ids : list string) (w : World) :
  always_answers server record_of ->
  (forall id, In id ids -> is_object (record_of id) = true) ->
  (List.length ids <= 20)%nat ->
  fst (enrich server ids w) = Ok (map record_of ids)
  /\ forallb is_object (map record_of ids) = true.
Proof.
  intros Hs Ho Hl. unfold enrich. split.
  - rewrite (progress_map_admitted _ _ _ Hs); [reflexivity|].
    apply admitted_within_budget;
      change (clamped_calls (limits 20 1 w)) with 20%Z;
      change (num_calls (limits 20 1 w)) with 0%Z; lia.
  - apply forallb_forall. intros v Hv. apply in_map_iff in Hv.
    destruct Hv as [id [<- Hid]]. apply Ho. exact Hid.
Qed.

Lemma small_batch_returns_witness :
  fst (enrich (object_server 0) (ids_of 20) started)
  = Ok (map url_record (ids_of 20))
  /\ forallb is_object (map url_record (ids_of 20)) = true.
Proof.
  apply (small_batch_returns (object_server 0) url_record (ids_of 20) started).
  - intros w id. eexists. split; reflexivity.
  - intros id _. reflexivity.
  - simpl. lia.
Defined.

(** ** Cell 8: endpoints that answer fast, and calls that fail *)

(** With requests that each take less than a twentieth of a second, the
    calls of one period are let through up to the twentieth and the next one
    is stopped. *)
Lemma fast_run (server : Server) (record_of : string -> Json) :
  always_answers server record_of ->
  (forall w u, 0 <= latency server w u /\ latency server w u < 1 # 20) ->
  forall ids self w,
    period self = 1 ->
    clamped_calls self = 20%Z ->
    (0 <= num_calls self <= 20)%Z ->
    0 <= now w - last_reset self ->
    now w - last_reset self <= inject_Z (num_calls self) * (1 # 20) ->
    ((1 <= num_calls self)%Z ->
     now w - last_reset self < inject_Z (num_calls self) * (1 # 20)) ->
    (20 - num_calls self < Z.of_nat (List.length ids))%Z ->
    exists r st,
      progress_map (get_rna_data server) ids (self, w)
      = (Raise (RateLimitException "too many calls" r), st)
      /\ 0 < r
      /\ (Z.of_nat (List.length (sent (snd st)))
          = Z.of_nat (List.length (sent w)) + (20 - num_calls self))%Z.
Proof.
  intros Hs Hlat.
  induction ids as [|id ids IH]; intros self w Hp Hc Hn Hpast Hle Hlt Hlen;
    [cbn [List.length Z.of_nat] in Hlen; lia|].
  rewrite progress_map_cons.
  assert (Hrem : 0 < period_remaining self w).
  { unfold period_remaining. rewrite Hp.
    destruct (Z.eq_dec (num_calls self) 0) as [E0|E0].
    - rewrite E0 in Hle. change (inject_Z 0) with 0%Q in Hle. lra.
    - assert (H20 : inject_Z (num_calls self) <= 20).
      { change 20%Q with (inject_Z 20). rewrite <- Zle_Qle. lia. }
      assert (H := Hlt ltac:(lia)). lra. }
  assert (Hatt : attempt self w = count self).
  { unfold attempt. apply Qle_bool_false in Hrem. rewrite Hrem. reflexivity. }
  destruct (Z.eq_dec (num_calls self) 20) as [E|E].
  - assert (Ha : admits self w = false).
    { unfold admits. rewrite Hatt. apply negb_false_iff, Z.ltb_lt.
      unfold count. cbn [num_calls clamped_calls]. lia. }
    unfold get_rna_data. rewrite (wrapper_rejected _ _ _ _ Ha).
    eexists. eexists. split; [reflexivity|]. split; [exact Hrem|].
    cbn [snd]. lia.
  - assert (Ha : admits self w = true).
    { apply admits_count. rewrite Hatt.
      unfold count. cbn [num_calls clamped_calls]. lia. }
    rewrite (get_rna_data_answered _ _ _ _ _ Hs Ha), Hatt.
    destruct (Hlat w (rna_url id)) as [Hl0 Hl1].
    destruct (IH (count self) (after_get server (rna_url id) w))
      as (r & st & Hrun & Hr & Hsent).
    + exact Hp.
    + exact Hc.
    + unfold count. cbn [num_calls]. lia.
    + simpl. lra.
    + simpl. rewrite inject_Z_plus. change (inject_Z 1) with 1%Q. lra.
    + intros _. simpl. rewrite inject_Z_plus. change (inject_Z 1) with 1%Q. lra.
    + unfold count. cbn [num_calls]. cbn [List.length] in Hlen. lia.
    + rewrite Hrun. exists r, st. split; [reflexivity|]. split; [exact Hr|].
      rewrite Hsent. unfold after_get, count. cbn [sent num_calls].
      rewrite length_app. cbn [List.length]. lia.
Qed.

(** X7. Against an endpoint that answers every request in less than a
    twentieth of a second, a map over more than 20 identifiers never returns:
    the 21st call raises [RateLimitException] with time left in the period,
    after exactly 20 requests. *)
Theorem fast_endpoint_stops_at_21 (server : Server) (record_of : string -> Json)
  (ids : list string) (w : World) :
  always_answers server record_of ->
  (forall w' u, 0 <= latency server w' u /\ latency server w' u < 1 # 20) ->
  (20 < List.length ids)%nat ->
  exists r,
    fst (enrich server ids w) = Raise (RateLimitException "too many calls" r)
    /\ 0 < r
    /\ List.length (sent (snd (snd (enrich server ids w))))
       = (List.length (sent w) + 20)%nat.
Proof.
  intros Hs Hlat Hlen. unfold enrich.
  assert (Hnow : now w - last_reset (limits 20 1 w) == 0) by (simpl; lra).
  destruct (fast_run server record_of Hs Hlat ids (limits 20 1 w) w)
    as (r & st & Hrun & Hr & Hsent).
  - reflexivity.
  - reflexivity.
  - change (num_calls (limits 20 1 w)) with 0%Z. lia.
  - lra.
  - change (num_calls (limits 20 1 w)) with 0%Z.
    change (inject_Z 0) with 0%Q. lra.
  - change (num_calls (limits 20 1 w)) with 0%Z. lia.
  - change (num_calls (limits 20 1 w)) with 0%Z. lia.
  - rewrite Hrun. exists r. split; [reflexivity|]. split; [exact Hr|].
    change (num_calls (limits 20 1 w)) with 0%Z in Hsent.
    cbn [snd]. lia.
Qed.

Lemma fast_endpoint_stops_at_21_witness :
  exists r,
    fst (enrich quick_server (ids_of 36) started)
    = Raise (RateLimitException "too many calls" r)
    /\ 0 < r
    /\ List.length (sent (snd (snd (enrich quick_server (ids_of 36) started))))
       = (List.length (sent started) + 20)%nat.
Proof.
  apply (fast_endpoint_stops_at_21 quick_server (fun id => JStr (rna_url id))
           (ids_of 36) started).
  - intros w id. eexists. split; reflexivity.
  - intros w u. simpl. split; [discriminate|reflexivity].
  - simpl. lia.
Defined.

(** The calls for identifiers that are answered, within the budget. *)
Lemma progress_map_answered_in (server : Server) (record_of : string -> Json)
  (ids : list string) :
  (forall w i, In i ids -> exists response,
      respond server w (rna_url i) = Answer response
      /\ body response = Some (record_of i)) ->
  forall self w,
    admitted_throughout server ids self w = true ->
    progress_map (get_rna_data server) ids (self, w)
    = (Ok (map record_of ids), after_calls server ids self w).
Proof.
  induction ids as [|id ids IH]; intros Hs self w Ha; [reflexivity|].
  simpl in Ha. apply andb_true_iff in Ha. destruct Ha as [Ha Hrest].
  rewrite progress_map_cons, (get_rna_data_admitted _ _ _ _ Ha).
  destruct (Hs w id (or_introl eq_refl)) as [response [-> Hb]].
  unfold json. rewrite Hb.
  rewrite (IH (fun w' i Hi => Hs w' i (or_intror Hi)) _ _ Hrest).
  reflexivity.
Qed.

Lemma after_calls_state (server : Server) (ids : list string) :
  forall self w,
    (0 <= num_calls self)%Z ->
    (0 <= num_calls (fst (after_calls server ids self w))
     <= num_calls self + Z.of_nat (List.length ids))%Z
    /\ clamped_calls (fst (after_calls server ids self w)) = clamped_calls self
    /\ map url (sent (snd (after_calls server ids self w)))
       = (map url (sent w) ++ map rna_url ids)%list.
Proof.
  induction ids as [|id ids IH]; intros self w Hn; simpl.
  - rewrite app_nil_r. repeat split; lia.
  - destruct (attempt_count self w Hn) as (Hn' & Hc' & _).
    destruct (IH (attempt self w) (after_get server (rna_url id) w)) as (H1 & H2 & H3);
      [lia|].
    rewrite H2, H3, Hc'. simpl. rewrite map_app, <- app_assoc. simpl.
    repeat split; lia.
Qed.

(** The map over two lists, one after the other. *)
Lemma progress_map_app {S A B} (f : A -> Py S B) (xs ys : list A) (s : S) :
  progress_map f (xs ++ ys) s
  = match progress_map f xs s with
    | (Ok vs, s') =>
        match progress_map f ys s' with
        | (Ok ws, s'') => (Ok (vs ++ ws)%list, s'')
        | (Raise e, s'') => (Raise e, s'')
        end
    | (Raise e, s') => (Raise e, s')
    end.
Proof.
  revert s. induction xs as [|x xs IH]; intros s.
  - simpl. unfold ret. destruct (progress_map f ys s) as [[ws|e] s'']; reflexivity.
  - simpl app. rewrite !progress_map_cons.
    destruct (f x s) as [[v|e] s1]; [|reflexivity].
    rewrite IH.
    destruct (progress_map f xs s1) as [[vs|e] s2]; [|reflexivity].
    destruct (progress_map f ys s2) as [[ws|e] s3]; reflexivity.
Qed.

(** The calls over two lists of identifiers, one after the other. *)
Lemma admitted_throughout_app (server : Server) (xs ys : list string) :
  forall self w,
    admitted_throughout server (xs ++ ys) self w
    = admitted_throughout server xs self w
      && admitted_throughout server ys (fst (after_calls server xs self w))
           (snd (after_calls server xs self w)).
Proof.
  induction xs as [|x xs IH]; intros self w; simpl; [reflexivity|].
  rewrite IH, andb_assoc. reflexivity.
Qed.

(** X8. The map stops at the first call that fails, wherever it is in the
    table: when the decorator lets the calls through up to an identifier
    whose request gets no answer, the map raises the connection error, the
    records fetched so far are lost, and no request is sent for the
    identifiers after it. *)
Theorem map_stops_at_first_failure (server : Server) (record_of : string -> Json)
  (ids1 : list string) (id : string) (ids2 : list string) (w : World) :
  (forall w' i, In i ids1 -> exists response,
      respond server w' (rna_url i) = Answer response
      /\ body response = Some (record_of i)) ->
  (forall w', respond server w' (rna_url id) = NoAnswer) ->
  admitted_throughout server (ids1 ++ [id]) (limits 20 1 w) w = true ->
  fst (enrich server (ids1 ++ id :: ids2) w) = Raise ConnectionError
  /\ map url (sent (snd (snd (enrich server (ids1 ++ id :: ids2) w))))
     = (map url (sent w) ++ map rna_url (ids1 ++ [id]))%list.
Proof.
  intros Hs Hdown Hadm. unfold enrich.
  rewrite admitted_throughout_app in Hadm.
  apply andb_true_iff in Hadm. destruct Hadm as [Ha1 Ha].
  rewrite progress_map_app,
    (progress_map_answered_in server record_of ids1 Hs _ _ Ha1).
  destruct (after_calls_state server ids1 (limits 20 1 w) w) as (_ & _ & Hlog);
    [simpl; lia|].
  destruct (after_calls server ids1 (limits 20 1 w) w) as [self1 w1].
  simpl in Ha, Hlog. rewrite andb_true_r in Ha.
  rewrite progress_map_cons, (get_rna_data_admitted server id self1 w1 Ha), Hdown.
  simpl. rewrite !map_app, Hlog, <- app_assoc. split; reflexivity.
Qed.

Lemma map_stops_at_first_failure_witness :
  fst (enrich flaky_server (ids_of 25 ++ "down" :: ["c"]) started)
  = Raise ConnectionError
  /\ map url (sent (snd (snd (enrich flaky_server (ids_of 25 ++ "down" :: ["c"]) started))))
     = (map url (sent started) ++ map rna_url (ids_of 25 ++ ["down"]))%list.
Proof.
  apply (map_stops_at_first_failure flaky_server (fun id => JStr (rna_url id))
           (ids_of 25) "down" ["c"] started).
  - intros w i Hi. apply repeat_spec in Hi. subst i.
    eexists. split; reflexivity.
  - intros w. reflexivity.
  - vm_compute. reflexivity.
Defined.

(** X9. A response whose body is not JSON makes the call raise
    [JSONDecodeError], whatever its status code; the request was sent and
    the attempt counts against the limit. *)
Theorem body_not_json (server : Server) (id : string)
  (self : RateLimitDecorator) (w : World) (response : Response) :
  admits self w = true ->
  respond server w (rna_url id) = Answer response ->
  body response = None ->
  get_rna_data server id (self, w)
  = (Raise JSONDecodeError, (attempt self w, after_get server (rna_url id) w)).
Proof.
  intros Ha Hr Hb. rewrite (get_rna_data_admitted _ _ _ _ Ha), Hr.
  unfold json. rewrite Hb. reflexivity.
Qed.

Lemma body_not_json_witness :
  get_rna_data html_server "URS0000000001_7227" (limits 20 1 started, started)
  = (Raise JSONDecodeError,
     (attempt (limits 20 1 started) started,
      after_get html_server (rna_url "URS0000000001_7227") started)).
Proof.
  apply (body_not_json html_server "URS0000000001_7227" (limits 20 1 started) started
           {| status_code := 200; body := None |});
    reflexivity.
Defined.

(** What any run of the map has sent, returned or not: the requests for a
    prefix of the identifiers. *)
Lemma progress_map_log (server : Server) (ids : list string) :
  forall self w,
  exists k,
    map url (sent (snd (snd (progress_map (get_rna_data server) ids (self, w)))))
    = (map url (sent w) ++ map rna_url (firstn k ids))%list.
Proof.
  induction ids as [|id ids IH]; intros self w.
  - exists 0%nat. simpl. rewrite app_nil_r. reflexivity.
  - rewrite progress_map_cons. destruct (admits self w) eqn:Ha.
    + rewrite (get_rna_data_admitted _ _ _ _ Ha).
      destruct (match respond server w (rna_url id) with
                | Answer response => json response
                | NoAnswer => Raise ConnectionError
                end) as [v|e].
      * destruct (IH (attempt self w) (after_get server (rna_url id) w)) as [k Hk].
        exists (S k).
        destruct (progress_map (get_rna_data server) ids
                    (attempt self w, after_get server (rna_url id) w))
          as [[vs|e] st]; simpl in *; rewrite Hk, map_app, <- app_assoc;
          reflexivity.
      * exists 1%nat. simpl. rewrite map_app. reflexivity.
    + unfold get_rna_data. rewrite (wrapper_rejected _ _ _ _ Ha).
      exists 0%nat. simpl. rewrite app_nil_r. reflexivity.
Qed.

Lemma In_firstn {A} (x : A) (k : nat) (l : list A) :
  In x (firstn k l) -> In x l.
Proof.
  revert l. induction k as [|k IH]; intros [|y l] H; simpl in H; try contradiction.
  destruct H as [H|H]; [left; exact H|right; apply IH; exact H].
Qed.

(** The calls for identifiers whose requests are answered with a body
    that decodes, all let through: the map returns. *)
Lemma progress_map_decodable (server : Server) (ids : list string) :
  (forall w i, In i ids -> exists response v,
      respond server w (rna_url i) = Answer response
      /\ body response = Some v) ->
  forall self w,
    admitted_throughout server ids self w = true ->
    exists out,
      progress_map (get_rna_data server) ids (self, w)
      = (Ok out, after_calls server ids self w).
Proof.
  induction ids as [|id ids IH]; intros Hs self w Ha.
  - exists []. reflexivity.
  - simpl in Ha. apply andb_true_iff in Ha. destruct Ha as [Ha Hrest].
    rewrite progress_map_cons, (get_rna_data_admitted _ _ _ _ Ha).
    destruct (Hs w id (or_introl eq_refl)) as (response & v & -> & Hb).
    unfold json. rewrite Hb.
    destruct (IH (fun w' i Hi => Hs w' i (or_intror Hi)) _ _ Hrest) as [out Hout].
    simpl after_calls. rewrite Hout. exists (v :: out). reflexivity.
Qed.

(** C8 (amended). A call of [get_rna_data] sends exactly one GET, to
    "https://rnacentral.org/api/v1/rna/" followed by the identifier, when the
    decorator lets it through, and none when the decorator stops it.  So a
    run of the map has sent, in order, one such GET for each identifier of a
    leading part of the column and nothing else; it has sent one for every
    identifier when the decorator lets every call through and every request
    is answered with a body that decodes. *)
Theorem C8_one_get_per_admitted_call :
  (forall id, rna_url id = "https://rnacentral.org/api/v1/rna/" ++ id)
  /\ (forall server id self w,
        sent (snd (snd (get_rna_data server id (self, w))))
        = if admits self w
          then (sent w ++ [{| sent_at := now w; url := rna_url id |}])%list
          else sent w)
  /\ (forall server ids w,
        exists k,
          map url (sent (snd (snd (enrich server ids w))))
          = (map url (sent w) ++ map rna_url (firstn k ids))%list)
  /\ (forall server ids w,
        admitted_throughout server ids (limits 20 1 w) w = true ->
        (forall w' i, In i ids -> exists response v,
            respond server w' (rna_url i) = Answer response
            /\ body response = Some v) ->
        map url (sent (snd (snd (enrich server ids w))))
        = (map url (sent w) ++ map rna_url ids)%list).
Proof.
  split; [reflexivity|]. split; [|split].
  - intros server id self w. destruct (admits self w) eqn:Ha.
    + rewrite (get_rna_data_admitted _ _ _ _ Ha). reflexivity.
    + unfold get_rna_data. rewrite (wrapper_rejected _ _ _ _ Ha). reflexivity.
  - intros server ids w. apply progress_map_log.
  - intros server ids w Ha Hs. unfold enrich.
    destruct (progress_map_decodable server ids Hs _ _ Ha) as [out ->].
    destruct (after_calls_state server ids (limits 20 1 w) w) as (_ & _ & Hlog);
      [simpl; lia|exact Hlog].
Qed.

(** C8 as stated fails: 21 identifiers against the zero-latency endpoint,
    the last of them "U".  The 21st call is stopped by the decorator: 20
    requests have been sent and none of them is for "U". *)
Lemma C8_counterexample :
  In "U" ids_then_U
  /\ List.length (sent (snd (snd (enrich instant_server ids_then_U started)))) = 20%nat
  /\ ~ In (rna_url "U")
         (map url (sent (snd (snd (enrich instant_server ids_then_U started))))).
Proof.
  split; [apply in_elt|]. split; [vm_compute; reflexivity|].
  intros H.
  assert (E : existsb (String.eqb (rna_url "U"))
                (map url (sent (snd (snd (enrich instant_server ids_then_U started)))))
              = false) by (vm_compute; reflexivity).
  assert (T : existsb (String.eqb (rna_url "U"))
                (map url (sent (snd (snd (enrich instant_server ids_then_U started)))))
              = true).
  { apply existsb_exists. exists (rna_url "U"). split; [exact H|].
    apply String.eqb_refl. }
  rewrite E in T. discriminate T.
Qed.

(** X10. Cells 6 and 8 together: whatever the endpoint does and however the
    map ends, the requests it has sent are those for the first rows of the
    filtered table, in order; every one of them is for a row of the table
    whose p-value is below the threshold, none for a row with a NaN. *)
Theorem requests_only_for_significant_rows (server : Server)
  (de_data : DataFrame) (w : World) :
  exists k,
    map url (sent (snd (snd (enrich_significant server de_data w))))
    = (map url (sent w)
       ++ map (fun row => rna_url (urs_taxid row))
              (firstn k (significant de_data)))%list
    /\ Forall (fun row => In row de_data
                          /\ float_lt (pvalue row) threshold = true
                          /\ pvalue row <> nan)
              (firstn k (significant de_data)).
Proof.
  unfold enrich_significant, enrich.
  destruct (progress_map_log server (map urs_taxid (significant de_data))
              (limits 20 1 w) w) as [k Hk].
  exists k. split.
  - rewrite Hk, firstn_map, map_map. reflexivity.
  - apply Forall_forall. intros row Hrow.
    apply In_firstn in Hrow. rewrite significant_filter in Hrow.
    apply filter_In in Hrow. destruct Hrow as [Hin Hlt].
    repeat split; auto. intros Hnan. rewrite Hnan in Hlt. discriminate Hlt.
Qed.

(** X11. Against an endpoint that answers every request with the
    identifier's record, a JSON object, and takes a twentieth of a second or
    more for each, the map is never stopped: for any number of identifiers it
    returns all the records, having sent one request per identifier, in
    order. *)
Theorem paced_endpoint_never_stopped (server : Server) (record_of : string -> Json)
  (ids : list string) (w : World) :
  always_answers server record_of ->
  (forall id, In id ids -> is_object (record_of id) = true) ->
  (forall w' u, 1 # 20 <= latency server w' u) ->
  fst (enrich server ids w) = Ok (map record_of ids)
  /\ forallb is_object (map record_of ids) = true
  /\ map url (sent (snd (snd (enrich server ids w))))
     = (map url (sent w) ++ map rna_url ids)%list.
Proof.
  intros Hs Ho Hlat. unfold enrich.
  assert (Hp : paced (limits 20 1 w) w).
  { unfold paced. simpl. repeat split; try lia.
    change (inject_Z 0) with 0%Q. lra. }
  rewrite (progress_map_admitted _ _ _ Hs _ _
             (paced_admitted_throughout server ids Hlat _ _ Hp)).
  split; [reflexivity|]. split.
  - apply forallb_forall. intros v Hv. apply in_map_iff in Hv.
    destruct Hv as [id [<- Hid]]. apply Ho. exact Hid.
  - destruct (after_calls_state server ids (limits 20 1 w) w) as (_ & _ & Hlog);
      [simpl; lia|exact Hlog].
Qed.

Lemma paced_endpoint_never_stopped_witness :
  fst (enrich (object_server (1 # 20)) (ids_of 36) started)
  = Ok (map url_record (ids_of 36))
  /\ forallb is_object (map url_record (ids_of 36)) = true
  /\ map url (sent (snd (snd (enrich (object_server (1 # 20)) (ids_of 36) started))))
     = (map url (sent started) ++ map rna_url (ids_of 36))%list.
Proof.
  apply (paced_endpoint_never_stopped (object_server (1 # 20)) url_record
           (ids_of 36) started).
  - intros w id. eexists. split; reflexivity.
  - intros id _. reflexivity.
  - intros w u. simpl. discriminate.
Defined.

(** ** Cell 16: the lookup on answers of every shape *)

Lemma comprehension_length {A B} (f : A -> result B) (xs : list A) :
  forall ys, comprehension f xs = Ok ys -> List.length ys = List.length xs.
Proof.
  induction xs as [|x xs IH]; intros ys H; simpl in H.
  - inversion H. reflexivity.
  - destruct (f x) as [y|e]; [|discriminate H].
    destruct (comprehension f xs) as [ys'|e]; [|discriminate H].
    inversion H. simpl. rewrite (IH ys' eq_refl). reflexivity.
Qed.

Lemma comprehension_all {A B} (f : A -> result B) (xs : list A) :
  Forall (fun x => exists y, f x = Ok y) xs ->
  exists ys, comprehension f xs = Ok ys.
Proof.
  induction 1 as [|x xs [y Hy] _ [ys IH]]; simpl.
  - exists []. reflexivity.
  - rewrite Hy, IH. exists (y :: ys). reflexivity.
Qed.

(** The first element on which the expression raises decides. *)
Lemma comprehension_first_failure {A B} (f : A -> result B)
  (xs : list A) (x : A) (ys : list A) (e : Exn) :
  Forall (fun x' => exists y, f x' = Ok y) xs ->
  f x = Raise e ->
  comprehension f (xs ++ x :: ys) = Raise e.
Proof.
  induction 1 as [|x' xs [y Hy] _ IH]; intros Hx; simpl.
  - rewrite Hx. reflexivity.
  - rewrite Hy, (IH Hx). reflexivity.
Qed.

(** The lookup, once the endpoint has answered with a JSON document. *)
Lemma lookup_answered (str_of_other : Json -> string) (server : Server)
  (genes : list string) (w : World) (response : Response) (doc : Json) :
  respond server w (litscan_url genes) = Answer response ->
  body response = Some doc ->
  lookup str_of_other server genes w
  = (and_then (and_then (getitem doc "entries") iterate) (fun hits =>
     and_then (comprehension (first_field "title") hits) (fun ts =>
     and_then (and_then (getitem doc "entries") iterate) (fun hits' =>
     and_then (comprehension (first_field "pmcid") hits') (fun ps =>
     Ok {| titles := ts; pmcids := ps;
           links := map (pmc_link str_of_other) ps |})))),
     (attempt (limits 20 1 w) w, after_get server (litscan_url genes) w)).
Proof.
  intros Hr Hb. unfold lookup, get_publications.
  rewrite (wrapper_admitted _ _ _ _ (fresh_admits 20 1 w)).
  unfold get_publications_body, bind, requests_get. rewrite Hr.
  unfold lift, json. rewrite Hb. reflexivity.
Qed.

(** X12. Whenever the lookup returns a table, the endpoint answered with a
    document whose [entries] could be walked, and the table has one row per
    entry: the three columns have the length of [entries], and the links are
    made, in order, from the first pmcid of each entry as the endpoint sent
    it. *)
Theorem lookup_table_shape (str_of_other : Json -> string) (server : Server)
  (genes : list string) (w : World) (df : PublicationData) :
  fst (lookup str_of_other server genes w) = Ok df ->
  exists response doc hits sent_pmcids,
    respond server w (litscan_url genes) = Answer response
    /\ body response = Some doc
    /\ and_then (getitem doc "entries") iterate = Ok hits
    /\ comprehension (first_field "pmcid") hits = Ok sent_pmcids
    /\ List.length (titles df) = List.length hits
    /\ List.length (pmcids df) = List.length hits
    /\ List.length (links df) = List.length hits
    /\ links df = map (pmc_link str_of_other) sent_pmcids
    /\ List.length (records df) = List.length hits.
Proof.
  intros H.
  destruct (respond server w (litscan_url genes)) as [response|] eqn:Hr.
  - destruct (body response) as [doc|] eqn:Hb.
    + rewrite (lookup_answered _ _ _ _ _ _ Hr Hb) in H. simpl in H.
      exists response, doc.
      destruct (and_then (getitem doc "entries") iterate) as [hits|e];
        [|discriminate H].
      exists hits. simpl in H.
      destruct (comprehension (first_field "title") hits) as [ts|e] eqn:Ht;
        [|discriminate H].
      simpl in H.
      destruct (comprehension (first_field "pmcid") hits) as [ps|e] eqn:Hp;
        [|discriminate H].
      simpl in H. inversion H; subst. simpl. exists ps.
      assert (Lt := comprehension_length _ _ _ Ht).
      assert (Lp := comprehension_length _ _ _ Hp).
      repeat split; auto.
      * rewrite length_map. exact Lp.
      * unfold records. simpl.
        rewrite rows3_combine, length_map, length_combine, Lt, Lp.
        apply Nat.min_id.
    + unfold lookup, get_publications in H.
      rewrite (wrapper_admitted _ _ _ _ (fresh_admits 20 1 w)) in H.
      unfold get_publications_body, bind, requests_get in H. rewrite Hr in H.
      unfold lift, json in H. rewrite Hb in H. discriminate H.
  - unfold lookup, get_publications in H.
    rewrite (wrapper_admitted _ _ _ _ (fresh_admits 20 1 w)) in H.
    unfold get_publications_body, bind, requests_get in H. rewrite Hr in H.
    discriminate H.
Qed.

Lemma lookup_table_shape_witness :
  exists response doc hits sent_pmcids,
    respond litscan_server started (litscan_url ["dme-mir-4968"]) = Answer response
    /\ body response = Some doc
    /\ and_then (getitem doc "entries") iterate = Ok hits
    /\ comprehension (first_field "pmcid") hits = Ok sent_pmcids
    /\ List.length (titles two_hits_table) = List.length hits
    /\ List.length (pmcids two_hits_table) = List.length hits
    /\ List.length (links two_hits_table) = List.length hits
    /\ links two_hits_table = map (pmc_link (fun _ => "")) sent_pmcids
    /\ List.length (records two_hits_table) = List.length hits.
Proof.
  apply (lookup_table_shape (fun _ => "") litscan_server ["dme-mir-4968"] started
           two_hits_table).
  reflexivity.
Defined.

(** X13. An answer without [entries] (the error document of the search
    service, say) makes the lookup raise [KeyError] for "entries", whatever
    the status code; the request has been sent. *)
Theorem lookup_without_entries (str_of_other : Json -> string) (server : Server)
  (genes : list string) (w : World) (response : Response)
  (members : list (string * Json)) :
  respond server w (litscan_url genes) = Answer response ->
  body response = Some (JDict members) ->
  find (fun kv => String.eqb (fst kv) "entries") members = None ->
  fst (lookup str_of_other server genes w) = Raise (KeyError (JStr "entries"))
  /\ sent (snd (snd (lookup str_of_other server genes w)))
     = (sent w ++ [{| sent_at := now w; url := litscan_url genes |}])%list.
Proof.
  intros Hr Hb Hf. rewrite (lookup_answered _ _ _ _ _ _ Hr Hb).
  unfold getitem. rewrite Hf. split; reflexivity.
Qed.

Lemma lookup_without_entries_witness :
  fst (lookup (fun _ => "") error_server ["dme-mir-4968"] started)
  = Raise (KeyError (JStr "entries"))
  /\ sent (snd (snd (lookup (fun _ => "") error_server ["dme-mir-4968"] started)))
     = (sent started
        ++ [{| sent_at := now started; url := litscan_url ["dme-mir-4968"] |}])%list.
Proof.
  apply (lookup_without_entries (fun _ => "") error_server ["dme-mir-4968"] started
           {| status_code := 400; body := Some (JDict [("message", JStr "bad query")]) |}
           [("message", JStr "bad query")]);
    reflexivity.
Defined.

(** X14. The titles of all the hits are read before any pmcid: the first hit
    whose title cannot be read decides what is raised, even when an earlier
    hit has no pmcid; no table is returned. *)
Theorem lookup_title_failure (str_of_other : Json -> string) (server : Server)
  (genes : list string) (w : World) (response : Response) (doc : Json)
  (good : list Json) (bad : Json) (rest : list Json) (e : Exn) :
  respond server w (litscan_url genes) = Answer response ->
  body response = Some doc ->
  getitem doc "entries" = Ok (JList (good ++ bad :: rest)) ->
  Forall (fun hit => exists t, first_field "title" hit = Ok t) good ->
  first_field "title" bad = Raise e ->
  fst (lookup str_of_other server genes w) = Raise e.
Proof.
  intros Hr Hb He Hgood Hbad. rewrite (lookup_answered _ _ _ _ _ _ Hr Hb), He.
  simpl. rewrite (comprehension_first_failure _ _ _ _ _ Hgood Hbad). reflexivity.
Qed.

Lemma lookup_title_failure_witness :
  fst (lookup (fun _ => "")
         (server_of ([hit_without_pmcid "First paper"]
                     ++ hit_without_title "PMC2" :: [hit_of "Third paper" "PMC3"]))
         ["dme-mir-4968"] started)
  = Raise (KeyError (JStr "title")).
Proof.
  apply (lookup_title_failure (fun _ => "")
           (server_of ([hit_without_pmcid "First paper"]
                       ++ hit_without_title "PMC2" :: [hit_of "Third paper" "PMC3"]))
           ["dme-mir-4968"] started
           {| status_code := 200;
              body := Some (JDict [("entries",
                              JList ([hit_without_pmcid "First paper"]
                                     ++ hit_without_title "PMC2"
                                        :: [hit_of "Third paper" "PMC3"]))]) |}
           (JDict [("entries",
                    JList ([hit_without_pmcid "First paper"]
                           ++ hit_without_title "PMC2"
                              :: [hit_of "Third paper" "PMC3"]))])
           [hit_without_pmcid "First paper"] (hit_without_title "PMC2")
           [hit_of "Third paper" "PMC3"] (KeyError (JStr "title")));
    try reflexivity.
  repeat constructor. eexists. reflexivity.
Defined.

(** X15. When every hit has a title, the first hit whose pmcid cannot be
    read decides what is raised: one hit with an empty pmcid list among the
    entries and the lookup raises [IndexError] instead of returning the
    other publications. *)
Theorem lookup_pmcid_failure (str_of_other : Json -> string) (server : Server)
  (genes : list string) (w : World) (response : Response) (doc : Json)
  (good : list Json) (bad : Json) (rest : list Json) (e : Exn) :
  respond server w (litscan_url genes) = Answer response ->
  body response = Some doc ->
  getitem doc "entries" = Ok (JList (good ++ bad :: rest)) ->
  Forall (fun hit => exists t, first_field "title" hit = Ok t)
         (good ++ bad :: rest) ->
  Forall (fun hit => exists p, first_field "pmcid" hit = Ok p) good ->
  first_field "pmcid" bad = Raise e ->
  fst (lookup str_of_other server genes w) = Raise e.
Proof.
  intros Hr Hb He Ht Hgood Hbad. rewrite (lookup_answered _ _ _ _ _ _ Hr Hb), He.
  simpl. destruct (comprehension_all _ _ Ht) as [ts Hts]. rewrite Hts. simpl.
  rewrite (comprehension_first_failure _ _ _ _ _ Hgood Hbad). reflexivity.
Qed.

Lemma lookup_pmcid_failure_witness :
  fst (lookup (fun _ => "")
         (server_of ([hit_of "First paper" "PMC1"]
                     ++ hit_without_pmcid "Second paper" :: [hit_of "Third paper" "PMC3"]))
         ["dme-mir-4968"] started)
  = Raise IndexError.
Proof.
  apply (lookup_pmcid_failure (fun _ => "")
           (server_of ([hit_of "First paper" "PMC1"]
                       ++ hit_without_pmcid "Second paper"
                          :: [hit_of "Third paper" "PMC3"]))
           ["dme-mir-4968"] started
           {| status_code := 200;
              body := Some (JDict [("entries",
                              JList ([hit_of "First paper" "PMC1"]
                                     ++ hit_without_pmcid "Second paper"
                                        :: [hit_of "Third paper" "PMC3"]))]) |}
           (JDict [("entries",
                    JList ([hit_of "First paper" "PMC1"]
                           ++ hit_without_pmcid "Second paper"
                              :: [hit_of "Third paper" "PMC3"]))])
           [hit_of "First paper" "PMC1"] (hit_without_pmcid "Second paper")
           [hit_of "Third paper" "PMC3"] IndexError);
    try reflexivity.
  - repeat constructor; eexists; reflexivity.
  - repeat constructor. eexists. reflexivity.
Defined.

(** X16. One lookup is one request: whatever the number of genes and
    whatever the endpoint answers, the cell sends exactly one GET, to the
    search URL built from the genes; with no answer it raises the connection
    error. *)
Theorem lookup_one_request (str_of_other : Json -> string) (server : Server)
  (genes : list string) (w : World) :
  sent (snd (snd (lookup str_of_other server genes w)))
  = (sent w ++ [{| sent_at := now w; url := litscan_url genes |}])%list
  /\ (respond server w (litscan_url genes) = NoAnswer ->
      fst (lookup str_of_other server genes w) = Raise ConnectionError).
Proof.
  unfold lookup, get_publications.
  rewrite (wrapper_admitted _ _ _ _ (fresh_admits 20 1 w)).
  unfold get_publications_body, bind, requests_get.
  destruct (respond server w (litscan_url genes)) as [response|]; simpl.
  - split; [reflexivity|discriminate].
  - split; reflexivity.
Qed.

(** ** Cells 12, 14 and 16: the table of the records *)

Lemma loc_map_filter {A} (f : A -> bool) (l : list A) :
  loc l (map f l) = filter f l.
Proof.
  induction l as [|x l IH]; simpl; [reflexivity|].
  destruct (f x); rewrite IH; reflexivity.
Qed.

Lemma has_column_true (name : string) (table : Table) :
  has_column name table = true
  <-> exists record, In record table /\ cell name record <> None.
Proof.
  unfold has_column. rewrite existsb_exists. split.
  - intros [record [Hin H]]. exists record. split; [exact Hin|].
    destruct (cell name record); [discriminate|discriminate H].
  - intros [record [Hin H]]. exists record. split; [exact Hin|].
    destruct (cell name record); [reflexivity|contradiction].
Qed.

Lemma has_column_false (name : string) (table : Table) :
  (forall record, In record table -> cell name record = None) ->
  has_column name table = false.
Proof.
  intros H. destruct (has_column name table) eqn:E; [|reflexivity].
  apply has_column_true in E. destruct E as [record [Hin Hc]].
  rewrite (H record Hin) in Hc. contradiction.
Qed.

Lemma miRNA_filter (table : Table) :
  has_column "rna_type" table = true ->
  miRNA table
  = Ok (filter (fun record =>
                  match cell "rna_type" record with
                  | Some (JStr t) => String.eqb t "miRNA"
                  | _ => false
                  end) table).
Proof.
  intros H. unfold miRNA, getitem_column. rewrite H. simpl.
  unfold column_eq. rewrite map_map, loc_map_filter. reflexivity.
Qed.

(** X17. Cell 14 keeps exactly the records whose [rna_type] is the string
    "miRNA", in the order of the table; records without an [rna_type], or
    with another value, are dropped. *)
Theorem miRNA_selects (rnacentral_data : Table) :
  has_column "rna_type" rnacentral_data = true ->
  exists selected,
    miRNA rnacentral_data = Ok selected
    /\ selected
       = filter (fun record =>
                   match cell "rna_type" record with
                   | Some (JStr t) => String.eqb t "miRNA"
                   | _ => false
                   end) rnacentral_data
    /\ forall record,
         In record selected
         <-> In record rnacentral_data
             /\ cell "rna_type" record = Some (JStr "miRNA").
Proof.
  intros H. eexists. split; [apply (miRNA_filter _ H)|]. split; [reflexivity|].
  intros record. rewrite filter_In. split; intros [Hin Hc]; split; auto.
  - destruct (cell "rna_type" record) as [[| | | |t| |]|]; try discriminate Hc.
    apply String.eqb_eq in Hc. rewrite Hc. reflexivity.
  - rewrite Hc. reflexivity.
Qed.

Lemma miRNA_selects_witness :
  exists selected,
    miRNA [record_lnc; record_mir; record_bare] = Ok selected
    /\ selected
       = filter (fun record =>
                   match cell "rna_type" record with
                   | Some (JStr t) => String.eqb t "miRNA"
                   | _ => false
                   end) [record_lnc; record_mir; record_bare]
    /\ forall record,
         In record selected
         <-> In record [record_lnc; record_mir; record_bare]
             /\ cell "rna_type" record = Some (JStr "miRNA").
Proof.
  apply (miRNA_selects [record_lnc; record_mir; record_bare]). reflexivity.
Defined.

(** X18. On a table in which no record has an [rna_type] (so on the empty
    table, which is what is left when no row was significant) cell 12 and
    cell 14 both raise [KeyError] for "rna_type". *)
Theorem rna_type_column_missing (rnacentral_data : Table) :
  (forall record, In record rnacentral_data -> cell "rna_type" record = None) ->
  miRNA rnacentral_data = Raise (KeyError (JStr "rna_type"))
  /\ rna_type_counts rnacentral_data = Raise (KeyError (JStr "rna_type")).
Proof.
  intros H. unfold miRNA, rna_type_counts, getitem_column.
  rewrite (has_column_false _ _ H). split; reflexivity.
Qed.

Lemma rna_type_column_missing_witness :
  miRNA [] = Raise (KeyError (JStr "rna_type"))
  /\ rna_type_counts [] = Raise (KeyError (JStr "rna_type")).
Proof.
  apply (rna_type_column_missing []). intros record [].
Defined.

(** X19. When the table has the two columns but no record is a miRNA, the
    expression cell 16 takes its genes from raises [IndexError]: the lookup
    is never called. *)
Theorem first_genes_no_miRNA (rnacentral_data : Table) :
  has_column "rna_type" rnacentral_data = true ->
  has_column "genes" rnacentral_data = true ->
  (forall record, In record rnacentral_data ->
                  cell "rna_type" record <> Some (JStr "miRNA")) ->
  first_genes rnacentral_data = Raise IndexError.
Proof.
  intros Ht Hg Hno. unfold first_genes. rewrite (miRNA_filter _ Ht). simpl.
  rewrite Hg. rewrite filter_none; [reflexivity|].
  intros record Hin.
  destruct (cell "rna_type" record) as [[| | | |t| |]|] eqn:Hc; try reflexivity.
  apply String.eqb_neq. intros ->. apply (Hno record Hin). exact Hc.
Qed.

Lemma first_genes_no_miRNA_witness :
  first_genes [record_lnc; record_bare] = Raise IndexError.
Proof.
  apply (first_genes_no_miRNA [record_lnc; record_bare]); try reflexivity.
  intros record [<-|[<-|[]]]; discriminate.
Defined.

(** X20. Only the first miRNA of the table gives its genes: the records
    after it, miRNA or not, change nothing. *)
Theorem first_genes_first_only (before : Table) (record : JsonObject)
  (after : Table) (genes : Json) :
  (forall r, In r before -> cell "rna_type" r <> Some (JStr "miRNA")) ->
  cell "rna_type" record = Some (JStr "miRNA") ->
  cell "genes" record = Some genes ->
  first_genes (before ++ record :: after)%list = Ok (Some genes).
Proof.
  intros Hb Hr Hg. unfold first_genes.
  assert (Ht : has_column "rna_type" (before ++ record :: after)%list = true).
  { apply has_column_true. exists record. split; [apply in_elt|].
    rewrite Hr. discriminate. }
  assert (Hc : has_column "genes" (before ++ record :: after)%list = true).
  { apply has_column_true. exists record. split; [apply in_elt|].
    rewrite Hg. discriminate. }
  rewrite (miRNA_filter _ Ht). simpl. rewrite Hc, filter_app.
  rewrite filter_none.
  - simpl. rewrite Hr. simpl. rewrite Hg. reflexivity.
  - intros r Hin.
    destruct (cell "rna_type" r) as [[| | | |t| |]|] eqn:E; try reflexivity.
    apply String.eqb_neq. intros ->. apply (Hb r Hin). exact E.
Qed.

Lemma first_genes_first_only_witness :
  first_genes ([record_lnc] ++ record_mir :: [record_bare; record_mir])%list
  = Ok (Some (JList [JStr "dme-mir-4968"])).
Proof.
  apply (first_genes_first_only [record_lnc] record_mir [record_bare; record_mir]
           (JList [JStr "dme-mir-4968"]));
    try reflexivity.
  intros r [<-|[]]. discriminate.
Defined.

(** ** Cell 12: the counts per type *)

Lemma compare_Eq (a b : string) : String_as_OT.compare a b = Eq -> a = b.
Proof.
  intros H. destruct (String_as_OT.compare_spec a b); try discriminate H.
  assumption.
Qed.

Lemma compare_Gt (a b : string) :
  String_as_OT.compare a b = Gt -> String_as_OT.lt b a.
Proof.
  intros H. destruct (String_as_OT.compare_spec a b); try discriminate H.
  assumption.
Qed.

Lemma lt_neq (a b : string) : String_as_OT.lt a b -> a <> b.
Proof.
  intros H ->. exact (StrictOrder_Irreflexive b H).
Qed.

Lemma bump_keys (key : string) (counts : list (string * nat)) (k : string) :
  In k (map fst (bump key counts)) -> k = key \/ In k (map fst counts).
Proof.
  induction counts as [|[k0 n] rest IH]; simpl.
  - intros [H|[]]. auto.
  - destruct (String_as_OT.compare key k0); simpl.
    + auto.
    + intros [H|H]; auto.
    + intros [H|H]; auto. destruct (IH H); auto.
Qed.

Lemma bump_sorted (key : string) (counts : list (string * nat)) :
  StronglySorted String_as_OT.lt (map fst counts) ->
  StronglySorted String_as_OT.lt (map fst (bump key counts)).
Proof.
  induction counts as [|[k0 n] rest IH]; simpl; intros Hs.
  - constructor; constructor.
  - inversion Hs as [|? ? Hrest Hall]; subst.
    destruct (String_as_OT.compare key k0) eqn:E; simpl.
    + exact Hs.
    + constructor; [exact Hs|]. constructor; [exact E|].
      apply Forall_forall. intros k Hk.
      rewrite Forall_forall in Hall.
      exact (StrictOrder_Transitive _ _ _ E (Hall k Hk)).
    + constructor; [apply IH; exact Hrest|].
      apply Forall_forall. intros k Hk.
      destruct (bump_keys _ _ _ Hk) as [->|Hin].
      * apply compare_Gt. exact E.
      * rewrite Forall_forall in Hall. apply Hall. exact Hin.
Qed.

Lemma count_of_absent (key : string) (counts : list (string * nat)) :
  Forall (String_as_OT.lt key) (map fst counts) -> count_of key counts = 0%nat.
Proof.
  unfold count_of. induction counts as [|[k0 n] rest IH]; simpl; intros H.
  - reflexivity.
  - inversion H as [|? ? Hlt Hrest]; subst.
    assert (E : String.eqb k0 key = false).
    { apply String.eqb_neq. intros ->. exact (lt_neq _ _ Hlt eq_refl). }
    rewrite E. apply IH. exact Hrest.
Qed.

Lemma count_of_bump (key : string) (counts : list (string * nat)) (k : string) :
  StronglySorted String_as_OT.lt (map fst counts) ->
  count_of k (bump key counts)
  = if String.eqb key k then S (count_of k counts) else count_of k counts.
Proof.
  induction counts as [|[k0 n] rest IH]; intros Hs.
  - unfold count_of. simpl. destruct (String.eqb key k); reflexivity.
  - inversion Hs as [|? ? Hrest Hall]; subst. simpl bump.
    destruct (String_as_OT.compare key k0) eqn:E.
    + apply compare_Eq in E. subst k0. unfold count_of. simpl.
      destruct (String.eqb key k); reflexivity.
    + destruct (String.eqb key k) eqn:Ek.
      * apply String.eqb_eq in Ek. subst k.
        rewrite (count_of_absent key ((k0, n) :: rest)).
        -- unfold count_of. simpl. rewrite String.eqb_refl. reflexivity.
        -- simpl. constructor; [exact E|].
           apply Forall_forall. intros k Hk. rewrite Forall_forall in Hall.
           exact (StrictOrder_Transitive _ _ _ E (Hall k Hk)).
      * unfold count_of. simpl. rewrite Ek. reflexivity.
    + assert (Hne : k0 <> key) by (apply lt_neq, compare_Gt; exact E).
      specialize (IH Hrest). unfold count_of in *. simpl.
      destruct (String.eqb k0 k) eqn:E0.
      * apply String.eqb_eq in E0. subst k.
        apply not_eq_sym, String.eqb_neq in Hne. rewrite Hne. reflexivity.
      * exact IH.
Qed.

Lemma sum_bump (key : string) (counts : list (string * nat)) :
  list_sum (map snd (bump key counts)) = S (list_sum (map snd counts)).
Proof.
  induction counts as [|[k0 n] rest IH]; simpl; [reflexivity|].
  destruct (String_as_OT.compare key k0); simpl; try rewrite IH; lia.
Qed.

Lemma bump_positive (key : string) (counts : list (string * nat)) :
  Forall (fun kn => (1 <= snd kn)%nat) counts ->
  Forall (fun kn => (1 <= snd kn)%nat) (bump key counts).
Proof.
  induction counts as [|[k0 n] rest IH]; simpl; intros H.
  - constructor; [simpl; lia|constructor].
  - inversion H as [|? ? Hn Hrest]; subst.
    destruct (String_as_OT.compare key k0).
    + constructor; [simpl; lia|exact Hrest].
    + constructor; [simpl; lia|exact H].
    + constructor; [exact Hn|apply IH; exact Hrest].
Qed.

Lemma count_by_sorted (keys : list (option string)) :
  StronglySorted String_as_OT.lt (map fst (count_by keys)).
Proof.
  induction keys as [|[k|] keys IH]; simpl.
  - constructor.
  - apply bump_sorted. exact IH.
  - exact IH.
Qed.

Lemma count_by_count (keys : list (option string)) (k : string) :
  count_of k (count_by keys) = occurrences k keys.
Proof.
  unfold occurrences. induction keys as [|[k0|] keys IH]; simpl.
  - reflexivity.
  - rewrite (count_of_bump _ _ _ (count_by_sorted keys)), IH.
    destruct (String.eqb k0 k); reflexivity.
  - exact IH.
Qed.

Lemma count_by_sum (keys : list (option string)) :
  list_sum (map snd (count_by keys))
  = List.length (filter (fun c => match c with Some _ => true | None => false end) keys).
Proof.
  induction keys as [|[k0|] keys IH]; simpl.
  - reflexivity.
  - rewrite sum_bump, IH. reflexivity.
  - exact IH.
Qed.

Lemma count_by_positive (keys : list (option string)) :
  Forall (fun kn => (1 <= snd kn)%nat) (count_by keys).
Proof.
  induction keys as [|[k0|] keys IH]; simpl.
  - constructor.
  - apply bump_positive. exact IH.
  - exact IH.
Qed.

Lemma filter_map_length {A B} (g : A -> B) (f : B -> bool) (l : list A) :
  List.length (filter f (map g l)) = List.length (filter (fun x => f (g x)) l).
Proof.
  induction l as [|x l IH]; simpl; [reflexivity|].
  destruct (f (g x)); simpl; rewrite IH; reflexivity.
Qed.

(** X21. Cell 12 counts right: on a table whose [rna_type] cells are
    strings, nulls or missing, the count shown for a type is the number of
    records of that type, and the counts add up to the number of records
    that have a type; records without one are in no group. *)
Theorem rna_type_counts_count (rnacentral_data : Table) :
  has_column "rna_type" rnacentral_data = true ->
  forallb string_or_missing (map (cell "rna_type") rnacentral_data) = true ->
  exists counts,
    rna_type_counts rnacentral_data = Ok counts
    /\ (forall t,
          count_of t counts
          = List.length
              (filter (fun record =>
                         match cell "rna_type" record with
                         | Some (JStr s) => String.eqb s t
                         | _ => false
                         end) rnacentral_data))
    /\ list_sum (map snd counts)
       = List.length
           (filter (fun record =>
                      match cell "rna_type" record with
                      | Some (JStr _) => true
                      | _ => false
                      end) rnacentral_data).
Proof.
  intros H _. unfold rna_type_counts, getitem_column. rewrite H. simpl.
  eexists. split; [reflexivity|]. split.
  - intros t. rewrite count_by_count. unfold occurrences.
    rewrite map_map, filter_map_length. f_equal.
    apply filter_ext. intros record. unfold key_of.
    destruct (cell "rna_type" record) as [[| | | |s| |]|]; reflexivity.
  - rewrite count_by_sum, map_map, filter_map_length. f_equal.
    apply filter_ext. intros record. unfold key_of.
    destruct (cell "rna_type" record) as [[| | | |s| |]|]; reflexivity.
Qed.

Lemma rna_type_counts_count_witness :
  exists counts,
    rna_type_counts [record_lnc; record_mir; record_bare; record_lnc] = Ok counts
    /\ (forall t,
          count_of t counts
          = List.length
              (filter (fun record =>
                         match cell "rna_type" record with
                         | Some (JStr s) => String.eqb s t
                         | _ => false
                         end) [record_lnc; record_mir; record_bare; record_lnc]))
    /\ list_sum (map snd counts)
       = List.length
           (filter (fun record =>
                      match cell "rna_type" record with
                      | Some (JStr _) => true
                      | _ => false
                      end) [record_lnc; record_mir; record_bare; record_lnc]).
Proof.
  apply (rna_type_counts_count [record_lnc; record_mir; record_bare; record_lnc]);
    reflexivity.
Defined.

(** X22. Cell 12 shows every type once, the types in ascending order, and
    no type with a count of zero. *)
Theorem rna_type_counts_order (rnacentral_data : Table) :
  has_column "rna_type" rnacentral_data = true ->
  forallb string_or_missing (map (cell "rna_type") rnacentral_data) = true ->
  exists counts,
    rna_type_counts rnacentral_data = Ok counts
    /\ StronglySorted String_as_OT.lt (map fst counts)
    /\ NoDup (map fst counts)
    /\ Forall (fun kn => (1 <= snd kn)%nat) counts.
Proof.
  intros H _. unfold rna_type_counts, getitem_column. rewrite H. simpl.
  eexists. split; [reflexivity|].
  assert (Hs := count_by_sorted (map key_of (map (cell "rna_type") rnacentral_data))).
  split; [exact Hs|]. split; [|apply count_by_positive].
  revert Hs. generalize (map fst (count_by (map key_of (map (cell "rna_type") rnacentral_data)))).
  induction l as [|k l IH]; intros Hs; constructor.
  - inversion Hs as [|? ? _ Hall]; subst. intros Hin.
    rewrite Forall_forall in Hall. exact (lt_neq _ _ (Hall k Hin) eq_refl).
  - inversion Hs; subst. apply IH. assumption.
Qed.

Lemma rna_type_counts_order_witness :
  exists counts,
    rna_type_counts [record_mir; record_lnc; record_bare; record_lnc] = Ok counts
    /\ StronglySorted String_as_OT.lt (map fst counts)
    /\ NoDup (map fst counts)
    /\ Forall (fun kn => (1 <= snd kn)%nat) counts.
Proof.
  apply (rna_type_counts_order [record_mir; record_lnc; record_bare; record_lnc]);
    reflexivity.
Defined.
